(** * LiveWeb AI chatbot: the streaming turn engine and the session pruning

    A shallow embedding of [backend/main.py] (the LangGraph turn engine and
    the server-sent-event generator) and of [save_chat_sessions] from
    [frontend/app.py].

    The language model, the search tool, [uuid4], [str] and [float] are
    collaborators outside the repository: they are section variables, and
    the language model and the search tool thread an abstract [World] so
    that two calls with equal arguments may answer differently. *)

From stdpp Require Import base option list strings pretty gmap.
From stdpp Require Import sorting.
From Stdlib Require Import ZArith Lia.

Open Scope string_scope.
Open Scope list_scope.
Set Warnings "-register-all".

(** ** Python values, exceptions and the error monad *)

Module Py.

(** The JSON-like values that tool arguments and tool outputs are made of. *)
Inductive value :=
| VNone
| VBool (b : bool)
| VInt (n : Z)
| VStr (s : string)
| VList (l : list value)
| VDict (d : list (string * value)).

Abbreviation dict := (list (string * value)).

(** [d.get(k)] on a dict kept as an association list. *)
Fixpoint lookup {A} (k : string) (d : list (string * A)) : option A :=
  match d with
  | [] => None
  | (k', v) :: d' => if String.eqb k k' then Some v else lookup k d'
  end.

(** [d.get(k, dflt)] *)
Definition get (d : dict) (k : string) (dflt : value) : value :=
  default dflt (lookup k d).

(** [type(v).__name__] *)
Definition type_name (v : value) : string :=
  match v with
  | VNone => "NoneType"
  | VBool _ => "bool"
  | VInt _ => "int"
  | VStr _ => "str"
  | VList _ => "list"
  | VDict _ => "dict"
  end.

(** Exceptions, all of them subclasses of [Exception]. [Failure] is what
    an external collaborator raises. *)
Inductive exn :=
| TypeError (msg : string)
| KeyError (key : string)
| IndexError (msg : string)
| AttributeError (msg : string)
| ValueError (msg : string)
| HTTPException (status_code : Z) (detail : string)
| Failure (msg : string).

(** [str(e)] *)
Definition str_exn (e : exn) : string :=
  match e with
  | TypeError m => m
  | KeyError k => "'" +:+ k +:+ "'"
  | IndexError m => m
  | AttributeError m => m
  | ValueError m => m
  | HTTPException c d => pretty c +:+ ": " +:+ d
  | Failure m => m
  end.

Inductive result (A : Type) :=
| Ok (a : A)
| Raise (e : exn).
Arguments Ok {A} a.
Arguments Raise {A} e.

Definition bind {A B} (r : result A) (k : A -> result B) : result B :=
  match r with
  | Ok a => k a
  | Raise e => Raise e
  end.

End Py.

Notation "'try' x <- r 'in' k" := (Py.bind r (fun x => k))
  (at level 10, x name, r at level 200, k at level 200,
   format "'[v' 'try'  x  <-  r  'in' '/' k ']'").

Import Py.

(** ** Messages, tool calls, events and frames *)

Definition tavily : string := "tavily_search_results_json".

Record ToolCall := mkToolCall {
  tc_name : string;
  tc_args : Py.dict;
  tc_id : string
}.

Inductive BaseMessage :=
| HumanMessage (content : string)
| AIMessage (content : string) (tool_calls : list ToolCall)
| AIMessageChunk (content : string) (tool_calls : list ToolCall)
| ToolMessage (content : string) (tool_call_id : string) (name : string).

(** What an event's [data] may hold: a message object or a plain value. *)
Inductive object :=
| Msg (m : BaseMessage)
| Val (v : Py.value).

Definition class_name (o : object) : string :=
  match o with
  | Msg (HumanMessage _) => "HumanMessage"
  | Msg (AIMessage _ _) => "AIMessage"
  | Msg (AIMessageChunk _ _) => "AIMessageChunk"
  | Msg (ToolMessage _ _ _) => "ToolMessage"
  | Val v => Py.type_name v
  end.

(** [getattr(o, "tool_calls", [])] *)
Definition getattr_tool_calls (o : object) : list ToolCall :=
  match o with
  | Msg (AIMessage _ calls) | Msg (AIMessageChunk _ calls) => calls
  | _ => []
  end.

(** One event of [graph.astream_events(..., version="v2")]. *)
Record event := mkEvent {
  ev_event : string;
  ev_name : string;
  ev_data : list (string * object)
}.

(** The whole of an event iteration: the events delivered, and the exception
    that ended the iteration, if one did. *)
Record event_stream := mkStream {
  delivered : list event;
  raised : option Py.exn
}.

(** The frames of the response, one per [yield]. *)
Inductive frame :=
| FCheckpoint (checkpoint_id : string)
| FContent (content : string)
| FSearchStart (query : Py.value)
| FSearchResults (urls : list Py.value)
| FEnd
| FError (message : string).

(** The value of the frame's ["type"] field. *)
Definition frame_type (f : frame) : string :=
  match f with
  | FCheckpoint _ => "checkpoint"
  | FContent _ => "content"
  | FSearchStart _ => "search_start"
  | FSearchResults _ => "search_results"
  | FEnd => "end"
  | FError _ => "error"
  end.

Definition is_checkpoint (f : frame) : bool :=
  match f with FCheckpoint _ => true | _ => false end.
Definition is_end (f : frame) : bool :=
  match f with FEnd => true | _ => false end.
Definition is_error (f : frame) : bool :=
  match f with FError _ => true | _ => false end.
Definition is_terminal (f : frame) : bool := is_end f || is_error f.
Definition is_search_start (f : frame) : bool :=
  match f with FSearchStart _ => true | _ => false end.
Definition is_search_results (f : frame) : bool :=
  match f with FSearchResults _ => true | _ => false end.

(** Number of frames of a kind in a stream. *)
Definition count (p : frame -> bool) (fs : list frame) : nat :=
  length (filter (fun f => p f = true) fs).

(** ** The streamed response generator *)

(** [event["data"][k]] *)
Definition data_item (ev : event) (k : string) : Py.result object :=
  match Py.lookup k (ev_data ev) with
  | Some o => Ok o
  | None => Raise (KeyError k)
  end.

Definition serialise_ai_message_chunk (chunk : object) : Py.result string :=
  match chunk with
  | Msg (AIMessageChunk c _) => Ok c
  | _ => Raise (TypeError ("Unsupported type: " +:+ class_name chunk))
  end.

(** The [search_start] frames of one finished model call. *)
Fixpoint search_starts (calls : list ToolCall) : list frame :=
  match calls with
  | [] => []
  | call :: rest =>
      if String.eqb (tc_name call) tavily
      then FSearchStart (Py.get (tc_args call) "query" (VStr "")) :: search_starts rest
      else search_starts rest
  end.

(** [[item["url"] for item in output if isinstance(item, dict) and "url" in item]] *)
Fixpoint extract_urls (output : list Py.value) : list Py.value :=
  match output with
  | [] => []
  | VDict d :: rest =>
      match Py.lookup "url" d with
      | Some u => u :: extract_urls rest
      | None => extract_urls rest
      end
  | _ :: rest => extract_urls rest
  end.

(** The body of the [async for]: the frames one event yields. *)
Definition on_event (ev : event) : Py.result (list frame) :=
  let event_type := ev_event ev in
  if String.eqb event_type "on_chat_model_stream" then
    try chunk <- data_item ev "chunk" in
    try chunk_content <- serialise_ai_message_chunk chunk in
    Ok [FContent chunk_content]
  else if String.eqb event_type "on_chat_model_end" then
    try output <- data_item ev "output" in
    Ok (search_starts (getattr_tool_calls output))
  else if String.eqb event_type "on_tool_end" && String.eqb (ev_name ev) tavily then
    try output <- data_item ev "output" in
    match output with
    | Val (VList items) => Ok [FSearchResults (extract_urls items)]
    | _ => Ok []
    end
  else Ok [].

(** The [async for] with the [yield] of the [end] frame after it and the
    [except Exception] around both. *)
Fixpoint stream_events (evs : list event) (exc : option Py.exn) : list frame :=
  match evs with
  | [] =>
      match exc with
      | None => [FEnd]
      | Some e => [FError (Py.str_exn e)]
      end
  | ev :: rest =>
      match on_event ev with
      | Ok frames => frames ++ stream_events rest exc
      | Raise e => [FError (Py.str_exn e)]
      end
  end.

Section Generator.

(** [str(uuid4())] of this invocation, and [graph.astream_events] as a
    function of its input and of the thread id of its config. *)
Variable new_checkpoint_id : string.
Variable astream_events : list BaseMessage -> string -> event_stream.

Definition generate_chat_responses
    (message : string) (checkpoint_id : option string) : list frame :=
  match checkpoint_id with
  | None =>
      let events := astream_events [HumanMessage message] new_checkpoint_id in
      FCheckpoint new_checkpoint_id
        :: stream_events (delivered events) (raised events)
  | Some thread_id =>
      let events := astream_events [HumanMessage message] thread_id in
      stream_events (delivered events) (raised events)
  end.

End Generator.

(** ** The turn engine: the graph of [model] and [tool_node] *)

(** What one call of the language model does: the fragments it streams, then
    either the tool calls of the finished answer or an exception. *)
Record llm_run := mkLlmRun {
  fragments : list string;
  completion : Py.result (list ToolCall)
}.

Inductive node := NModel | NToolNode | NEnd.

Definition node_eqb (a b : node) : bool :=
  match a, b with
  | NModel, NModel | NToolNode, NToolNode | NEnd, NEnd => true
  | _, _ => false
  end.

(** The text of a message assembled from its streamed fragments. *)
Definition join (fragments : list string) : string :=
  foldr String.append "" fragments.

(** The [add_messages] reducer of [State]: the update is appended. *)
Definition add_messages (left right : list BaseMessage) : list BaseMessage :=
  left ++ right.

(** [state["messages"][-1]] *)
Definition last_message (messages : list BaseMessage) : Py.result BaseMessage :=
  match last messages with
  | Some m => Ok m
  | None => Raise (IndexError "list index out of range")
  end.

(** [hasattr(m, "tool_calls")] with the attribute's value. *)
Definition tool_calls_attr (m : BaseMessage) : option (list ToolCall) :=
  match m with
  | AIMessage _ calls | AIMessageChunk _ calls => Some calls
  | _ => None
  end.

Definition tools_router (messages : list BaseMessage) : Py.result node :=
  try last_message <- last_message messages in
  match tool_calls_attr last_message with
  | Some (_ :: _) => Ok NToolNode
  | _ => Ok NEnd
  end.

(** The edges: the conditional edge out of [model], the plain edge from
    [tool_node] back to [model]. *)
Definition next_node (n : node) (messages : list BaseMessage) : Py.result node :=
  match n with
  | NModel => tools_router messages
  | NToolNode => Ok NModel
  | NEnd => Ok NEnd
  end.

Definition entry_point : node := NModel.

(** The events of the run that the generator looks at, and two it ignores. *)
Definition on_chat_model_start : event :=
  mkEvent "on_chat_model_start" "ChatGroq" [].
Definition on_chat_model_stream (fragment : string) : event :=
  mkEvent "on_chat_model_stream" "ChatGroq"
    [("chunk", Msg (AIMessageChunk fragment []))].
Definition on_chat_model_end (output : BaseMessage) : event :=
  mkEvent "on_chat_model_end" "ChatGroq" [("output", Msg output)].
Definition on_tool_start (args : Py.dict) : event :=
  mkEvent "on_tool_start" tavily [("input", Val (VDict args))].
Definition on_tool_end (output : Py.value) : event :=
  mkEvent "on_tool_end" tavily [("output", Val output)].

(** [except Exception as e: raise HTTPException(status_code=500, detail=str(e))] *)
Definition as_http_500 {A} (r : Py.result A) : Py.result A :=
  match r with
  | Ok a => Ok a
  | Raise e => Raise (HTTPException 500 (Py.str_exn e))
  end.

Section TurnEngine.

Variable World : Type.
Variable llm_with_tools : list BaseMessage -> World -> llm_run * World.
Variable search_tool : Py.dict -> World -> Py.result Py.value * World.
Variable py_str : Py.value -> string.
Variable uuid4 : World -> string * World.

(** What running a node leaves behind: the events it emitted, the tool
    invocations it made (call and output, in order), its state update or
    its exception, and the world after it. *)
Record node_run := mkNodeRun {
  nr_events : list event;
  nr_invoked : list (ToolCall * Py.value);
  nr_update : Py.result (list BaseMessage);
  nr_world : World
}.

Definition model (messages : list BaseMessage) (w : World) : node_run :=
  let '(run, w') := llm_with_tools messages w in
  let streamed := on_chat_model_start :: map on_chat_model_stream (fragments run) in
  match completion run with
  | Ok calls =>
      let result := AIMessage (join (fragments run)) calls in
      mkNodeRun (streamed ++ [on_chat_model_end result]) [] (Ok [result]) w'
  | Raise e =>
      mkNodeRun streamed [] (as_http_500 (Raise e)) w'
  end.

(** The [for tool_call in tool_calls] loop of [tool_node]. *)
Fixpoint tool_node_loop (tool_calls : list ToolCall) (w : World) : node_run :=
  match tool_calls with
  | [] => mkNodeRun [] [] (Ok []) w
  | tool_call :: rest =>
      let tool_name := tc_name tool_call in
      let tool_args := tc_args tool_call in
      let tool_id := tc_id tool_call in
      if String.eqb tool_name tavily then
        match search_tool tool_args w with
        | (Raise e, w') => mkNodeRun [on_tool_start tool_args] [] (Raise e) w'
        | (Ok search_results, w') =>
            let r := tool_node_loop rest w' in
            mkNodeRun
              (on_tool_start tool_args :: on_tool_end search_results :: nr_events r)
              ((tool_call, search_results) :: nr_invoked r)
              (try tool_messages <- nr_update r in
               Ok (ToolMessage (py_str search_results) tool_id tool_name
                     :: tool_messages))
              (nr_world r)
        end
      else tool_node_loop rest w
  end.

Definition tool_node (messages : list BaseMessage) (w : World) : node_run :=
  match last_message messages with
  | Raise e => mkNodeRun [] [] (as_http_500 (Raise e)) w
  | Ok m =>
      match tool_calls_attr m with
      | None =>
          mkNodeRun [] []
            (as_http_500 (Raise (AttributeError "object has no attribute 'tool_calls'"))) w
      | Some tool_calls =>
          let r := tool_node_loop tool_calls w in
          mkNodeRun (nr_events r) (nr_invoked r) (as_http_500 (nr_update r)) (nr_world r)
      end
  end.

(** A run of the compiled graph in progress. *)
Record config := mkConfig {
  at_node : node;
  messages : list BaseMessage;
  world : World;
  events : list event;
  invoked : list (ToolCall * Py.value);
  failure : option Py.exn
}.

Definition run_node (n : node) (msgs : list BaseMessage) (w : World) : node_run :=
  match n with
  | NModel => model msgs w
  | NToolNode => tool_node msgs w
  | NEnd => mkNodeRun [] [] (Ok []) w
  end.

(** One node of the graph runs, its update is merged, the edge is taken. *)
Definition step (c : config) : config :=
  match failure c, at_node c with
  | Some _, _ | None, NEnd => c
  | None, n =>
      let r := run_node n (messages c) (world c) in
      let evs := events c ++ nr_events r in
      let inv := invoked c ++ nr_invoked r in
      match nr_update r with
      | Raise e => mkConfig n (messages c) (nr_world r) evs inv (Some e)
      | Ok update =>
          let msgs := add_messages (messages c) update in
          match next_node n msgs with
          | Raise e => mkConfig n msgs (nr_world r) evs inv (Some e)
          | Ok n' => mkConfig n' msgs (nr_world r) evs inv None
          end
      end
  end.

(** The run observed for [fuel] node executions. [fuel] is the length of the
    observation: the graph as built names no bound on the number of node
    executions, and a finished run no longer moves. *)
Definition run (fuel : nat) (c : config) : config := Nat.iter fuel step c.

Definition finished (c : config) : bool :=
  match failure c with
  | Some _ => true
  | None => node_eqb (at_node c) NEnd
  end.

(** The Conversation Store ([MemorySaver]): thread id to history. An
    unknown thread id loads as the empty history. *)
Definition load (store : gmap string (list BaseMessage)) (thread_id : string)
    : list BaseMessage :=
  default [] (store !! thread_id).

Definition start (store : gmap string (list BaseMessage)) (thread_id : string)
    (input : list BaseMessage) (w : World) : config :=
  mkConfig entry_point (add_messages (load store thread_id) input) w [] [] None.

(** [graph.astream_events(input, config)] observed for [fuel] node runs. *)
Definition graph_run (fuel : nat) (store : gmap string (list BaseMessage))
    (w : World) (input : list BaseMessage) (thread_id : string) : config :=
  run fuel (start store thread_id input w).

Definition stream_of (c : config) : event_stream :=
  mkStream (events c) (failure c).

(** What a finished request leaves behind. *)
Record turn := mkTurn {
  frames : list frame;
  final : config;
  store_after : gmap string (list BaseMessage)
}.

(** The endpoint: [None] when [fuel] node runs do not finish the turn. *)
Definition chat_stream (fuel : nat) (message : string)
    (checkpoint_id : option string)
    (store : gmap string (list BaseMessage)) (w : World) : option turn :=
  let '(new_id, w1) := uuid4 w in
  let w0 := match checkpoint_id with None => w1 | Some _ => w end in
  let graph := graph_run fuel store w0 in
  let thread_id := default new_id checkpoint_id in
  let c := graph [HumanMessage message] thread_id in
  if finished c then
    Some (mkTurn
            (generate_chat_responses new_id
               (fun input tid => stream_of (graph input tid))
               message checkpoint_id)
            c
            (<[thread_id := messages c]> store))
  else None.

End TurnEngine.


Arguments mkNodeRun {World} _ _ _ _.
Arguments nr_events {World} _.
Arguments nr_invoked {World} _.
Arguments nr_update {World} _.
Arguments nr_world {World} _.
Arguments mkConfig {World} _ _ _ _ _ _.
Arguments at_node {World} _.
Arguments messages {World} _.
Arguments world {World} _.
Arguments events {World} _.
Arguments invoked {World} _.
Arguments failure {World} _.
Arguments finished {World} _.
Arguments stream_of {World} _.
Arguments frames {World} _.
Arguments final {World} _.
Arguments store_after {World} _.

(** ** What a stream and a history say, for the statements below *)

(** The [content] fields of the [content] frames, concatenated in order. *)
Fixpoint frame_text (fs : list frame) : string :=
  match fs with
  | [] => ""
  | FContent c :: rest => c +:+ frame_text rest
  | _ :: rest => frame_text rest
  end.

(** The queries of the [search_start] frames, in order. *)
Fixpoint queries (fs : list frame) : list Py.value :=
  match fs with
  | [] => []
  | FSearchStart q :: rest => q :: queries rest
  | _ :: rest => queries rest
  end.

(** The URL lists of the [search_results] frames, in order. *)
Fixpoint url_lists (fs : list frame) : list (list Py.value) :=
  match fs with
  | [] => []
  | FSearchResults urls :: rest => urls :: url_lists rest
  | _ :: rest => url_lists rest
  end.

(** The texts of the assistant messages of a history, concatenated. *)
Fixpoint assistant_text (history : list BaseMessage) : string :=
  match history with
  | [] => ""
  | AIMessage text _ :: rest => text +:+ assistant_text rest
  | _ :: rest => assistant_text rest
  end.

Definition is_search (call : ToolCall) : bool := String.eqb (tc_name call) tavily.

Definition search_calls (calls : list ToolCall) : list ToolCall :=
  filter (fun call => is_search call = true) calls.

(** The search calls the assistant messages of a history request, in order. *)
Fixpoint requested (history : list BaseMessage) : list ToolCall :=
  match history with
  | [] => []
  | AIMessage _ calls :: rest => search_calls calls ++ requested rest
  | _ :: rest => requested rest
  end.

Definition query_of (call : ToolCall) : Py.value :=
  Py.get (tc_args call) "query" (VStr "").

Definition is_list (v : Py.value) : bool :=
  match v with VList _ => true | _ => false end.

(** The URLs the frame of a list output carries. *)
Definition urls_of_output (output : Py.value) : list Py.value :=
  match output with
  | VList items => extract_urls items
  | _ => []
  end.

(** Walks a stream with the number of searches started and not yet
    answered; [None] when a [search_results] frame has no open search. *)
Fixpoint open_searches (n : nat) (fs : list frame) : option nat :=
  match fs with
  | [] => Some n
  | FSearchStart _ :: rest => open_searches (S n) rest
  | FSearchResults _ :: rest =>
      match n with
      | 0 => None
      | S m => open_searches m rest
      end
  | _ :: rest => open_searches n rest
  end.

(** The tool-call identifiers a message issues. *)
Definition issued_by (m : BaseMessage) : list string :=
  match tool_calls_attr m with
  | Some calls => map tc_id calls
  | None => []
  end.

(** Every tool-result message of [history] answers an identifier issued
    before it, either in [issued] or by an earlier message. *)
Fixpoint references_issued (issued : list string) (history : list BaseMessage) : bool :=
  match history with
  | [] => true
  | m :: rest =>
      match m with
      | ToolMessage _ tool_call_id _ => bool_decide (tool_call_id ∈ issued)
      | _ => true
      end && references_issued (issued ++ issued_by m) rest
  end.


(** The tool-result message [tool_node] builds for one invocation. *)
Definition tool_message (py_str : Py.value -> string)
    (invocation : ToolCall * Py.value) : BaseMessage :=
  ToolMessage (py_str invocation.2) (tc_id invocation.1) (tc_name invocation.1).

(** The [search_results] frames of the outputs of finished searches: an
    output that is not a list yields none. *)
Fixpoint results_frames (outputs : list Py.value) : list frame :=
  match outputs with
  | [] => []
  | VList items :: rest => FSearchResults (extract_urls items) :: results_frames rest
  | _ :: rest => results_frames rest
  end.

(** A frame yielded inside the event loop: neither the checkpoint frame nor
    a terminal one. *)
Definition in_loop (f : frame) : Prop :=
  is_checkpoint f = false /\ is_end f = false /\ is_error f = false.

(** The frames yielded by the loop itself, and the exception that reaches
    the [except] clause, if any. *)
Fixpoint yielded (evs : list event) : list frame :=
  match evs with
  | [] => []
  | ev :: rest =>
      match on_event ev with
      | Ok fs => fs ++ yielded rest
      | Raise _ => []
      end
  end.

Fixpoint turn_exception (evs : list event) (exc : option Py.exn) : option Py.exn :=
  match evs with
  | [] => exc
  | ev :: rest =>
      match on_event ev with
      | Ok _ => turn_exception rest exc
      | Raise e => Some e
      end
  end.

Definition terminal_frame (exc : option Py.exn) : frame :=
  match exc with
  | None => FEnd
  | Some e => FError (Py.str_exn e)
  end.

(** The URL of one record of the gateway's output, when it has one. *)
Definition url_of (item : Py.value) : option Py.value :=
  match item with
  | VDict d => Py.lookup "url" d
  | _ => None
  end.

(** ** The invariant of a run of the graph *)

(** Every search of the log returned a list. *)
Definition all_lists (invocations : list (ToolCall * Py.value)) : bool :=
  forallb is_list invocations.*2.

(** What holds of a run that has not failed, [m0] being the history it
    started from: what was appended since, and how the frames yielded so far
    relate to it, node by node. *)
Definition live_inv {World : Type} (m0 : list BaseMessage) (c : config World) : Prop :=
  exists appended,
    messages c = m0 ++ appended /\
    frame_text (yielded (events c)) = assistant_text appended /\
    queries (yielded (events c)) = map query_of (requested appended) /\
    match at_node c with
    | NToolNode =>
        exists pre text calls,
          appended = pre ++ [AIMessage text calls] /\ calls <> [] /\
          (invoked c).*1 = requested pre /\
          (all_lists (invoked c) = true ->
           open_searches 0 (yielded (events c)) = Some (length (search_calls calls)))
    | NModel =>
        (invoked c).*1 = requested appended /\
        (all_lists (invoked c) = true -> open_searches 0 (yielded (events c)) = Some 0)
    | NEnd =>
        (invoked c).*1 = requested appended /\
        (all_lists (invoked c) = true -> open_searches 0 (yielded (events c)) = Some 0) /\
        exists pre text, appended = pre ++ [AIMessage text []]
    end.

Definition turn_inv {World : Type} (m0 : list BaseMessage) (c : config World) : Prop :=
  turn_exception (events c) None = None /\
  url_lists (yielded (events c)) = url_lists (results_frames (invoked c).*2) /\
  (references_issued [] m0 = true -> references_issued [] (messages c) = true) /\
  (failure c = None -> live_inv m0 c).


(** ** The frontend: saving the chat sessions *)

(** One chat session of the sidebar: its name, its transcript (role and
    content of each message) and the conversation identifier of the backend. *)
Record session := mkSession {
  session_name : string;
  session_messages : list (string * string);
  session_checkpoint_id : option string
}.

(** [l[:n]] *)
Definition slice_to {A} (n : Z) (l : list A) : list A :=
  if (n <? 0)%Z
  then take (Z.to_nat (Z.of_nat (length l) + n)) l
  else take (Z.to_nat n) l.

(** [d[k] = v] on a dict kept in insertion order. *)
Fixpoint dict_set {V} (d : list (string * V)) (k : string) (v : V) : list (string * V) :=
  match d with
  | [] => [(k, v)]
  | (k', v') :: d' =>
      if String.eqb k k' then (k', v) :: d' else (k', v') :: dict_set d' k v
  end.

(** [dict(pairs)] *)
Definition dict_of {V} (pairs : list (string * V)) : list (string * V) :=
  foldl (fun d kv => dict_set d kv.1 kv.2) [] pairs.

Section SaveChatSessions.

(** [float(key)]: a number of the carrier [F], compared by [flt] ([<]), or
    [None] for the [ValueError] of a key that is not a number. *)
Variable F : Type.
Variable float : string -> option F.
Variable flt : F -> F -> bool.

(** The sort keys [float(x[0])], computed for every item before sorting. *)
Fixpoint sort_keys (items : list (string * session))
    : Py.result (list (F * (string * session))) :=
  match items with
  | [] => Ok []
  | x :: rest =>
      match float x.1 with
      | None => Raise (ValueError ("could not convert string to float: '" +:+ x.1 +:+ "'"))
      | Some key => try keyed <- sort_keys rest in Ok ((key, x) :: keyed)
      end
  end.

(** [sorted(..., reverse=True)]: decreasing keys, items of equal keys in
    their original order. *)
Fixpoint insert_desc (x : F * (string * session))
    (sorted : list (F * (string * session))) : list (F * (string * session)) :=
  match sorted with
  | [] => [x]
  | y :: rest =>
      if flt x.1 y.1 then y :: insert_desc x rest else x :: y :: rest
  end.

(** [x] may stand before [y] in a decreasing list. *)
Definition not_below (x y : F * (string * session)) : Prop := flt x.1 y.1 = false.

Definition sorted_reverse (keyed : list (F * (string * session)))
    : list (F * (string * session)) :=
  foldr insert_desc [] keyed.

(** The value [db["sessions"]] is set to, or the exception. *)
Definition sessions_to_save (sessions : list (string * session)) (max_sessions : Z)
    : Py.result (list (string * session)) :=
  if (Z.of_nat (length sessions) >? max_sessions)%Z then
    try keyed <- sort_keys sessions in
    let sorted_items := (sorted_reverse keyed).*2 in
    Ok (dict_of (slice_to max_sessions sorted_items))
  else Ok sessions.

(** The shelf [db] after [save_chat_sessions(sessions, max_sessions)]. *)
Definition save_chat_sessions (sessions : list (string * session)) (max_sessions : Z)
    (db : gmap string (list (string * session)))
    : Py.result (gmap string (list (string * session))) :=
  try sessions <- sessions_to_save sessions max_sessions in
  Ok (<["sessions" := sessions]> db).

End SaveChatSessions.

(** ** Scenarios: concrete collaborators *)

Module Scenario.

(** The world counts the calls of the language model. *)
Definition uuid4 (w : nat) : string * nat :=
  ("0b9f6c1e-5a3d-4c58-9a51-2f0c1a7e4d10", w).

Definition py_str (v : Py.value) : string :=
  match v with
  | VStr s => s
  | _ => "[...]"
  end.

Definition weather_call : ToolCall :=
  mkToolCall tavily [("query", VStr "Tokyo weather")] "call_1".

Definition calculator_call : ToolCall :=
  mkToolCall "calculator" [("expression", VStr "21 * 2")] "call_2".

Definition records : Py.value :=
  VList [VDict [("url", VStr "https://weather.example/tokyo");
                ("content", VStr "Sunny, 21 C")];
         VDict [("title", VStr "Tokyo"); ("url", VStr "https://jma.example/tokyo")]].

Definition search_ok (args : Py.dict) (w : nat) : Py.result Py.value * nat :=
  (Ok records, w).

(** The search tool hands back the text of its error instead of raising. *)
Definition search_gives_text (args : Py.dict) (w : nat) : Py.result Py.value * nat :=
  (Ok (VStr "HTTPError('502 Server Error: Bad Gateway')"), w).

(** The search tool raises. *)
Definition search_raises (args : Py.dict) (w : nat) : Py.result Py.value * nat :=
  (Raise (Failure "Connection timed out"), w).

(** Says something while asking for a search, then answers. *)
Definition llm_talkative (history : list BaseMessage) (w : nat) : llm_run * nat :=
  match w with
  | 0 => (mkLlmRun ["Let me "; "check."] (Ok [weather_call; calculator_call]), 1)
  | _ => (mkLlmRun ["Sunny, "; "21 C."] (Ok []), S w)
  end.

(** Asks for a search without a word, then answers. *)
Definition llm_quiet (history : list BaseMessage) (w : nat) : llm_run * nat :=
  match w with
  | 0 => (mkLlmRun [] (Ok [weather_call]), 1)
  | _ => (mkLlmRun ["Sunny, "; "21 C."] (Ok []), S w)
  end.


Definition question : string := "What's the weather in Tokyo right now?".


(** Three saved sessions, and [float] on their keys in hundredths. *)
Definition saved_sessions : list (string * session) :=
  [("1718000000.25", mkSession "Chat 2024-06-10 06:13" [("user", "hi")] None);
   ("1718000900.5", mkSession "Chat 2024-06-10 06:28" [] (Some "thread-1"));
   ("1718000400.75", mkSession "Chat 2024-06-10 06:20" [] None)].

Definition float_of_key (key : string) : option Z :=
  Py.lookup key
    [("1718000000.25", 171800000025%Z);
     ("1718000900.5", 171800090050%Z);
     ("1718000400.75", 171800040075%Z)].

End Scenario.

(** ** The rest of the backend: the keys and the health probe *)

(** [bool(key)] for what [os.getenv] returned. *)
Definition configured (key : option string) : bool :=
  match key with
  | None | Some "" => false
  | Some _ => true
  end.

(** The validation of the two keys when the module is loaded. *)
Definition validate_keys (tavily_key groq_key : option string) : Py.result unit :=
  if negb (configured tavily_key) then
    Raise (ValueError "TAVILY_API_KEY not found in environment variables. Please add it to your .env file.")
  else if negb (configured groq_key) then
    Raise (ValueError "GROQ_API_KEY not found in environment variables. Please add it to your .env file.")
  else Ok tt.

Record health := mkHealth {
  status : string;
  tavily_key_configured : bool;
  groq_key_configured : bool
}.

Definition health_check (tavily_key groq_key : option string) : health :=
  mkHealth "healthy" (configured tavily_key) (configured groq_key).

(** The events the [async for] has a branch for. *)
Definition handled (ev : event) : bool :=
  String.eqb (ev_event ev) "on_chat_model_stream"
  || String.eqb (ev_event ev) "on_chat_model_end"
  || (String.eqb (ev_event ev) "on_tool_end" && String.eqb (ev_name ev) tavily).

(** ** The rest of the frontend: the session state and the prompt *)

(** [db.get("sessions", {})] on the opened shelf, [{}] when opening fails. *)
Definition load_chat_sessions
    (shelf : Py.result (gmap string (list (string * session))))
    : list (string * session) :=
  match shelf with
  | Ok db => default [] (db !! "sessions")
  | Raise _ => []
  end.

(** [del d[k]] *)
Fixpoint dict_del {V} (d : list (string * V)) (k : string) : list (string * V) :=
  match d with
  | [] => []
  | (k', v) :: d' =>
      if String.eqb k k' then dict_del d' k else (k', v) :: dict_del d' k
  end.

(** [k in d] *)
Definition dict_mem {V} (k : string) (d : list (string * V)) : bool :=
  match Py.lookup k d with
  | Some _ => true
  | None => false
  end.

(** [st.session_state]: the sessions in memory and the current one. *)
Record session_state := mkSessionState {
  chat_sessions : list (string * session);
  current_session_id : option string
}.

(** What a line of the response decodes to: a frame of the backend, or the
    [limit] notice the loop also knows. *)
Inductive sse_data :=
| Sent (f : frame)
| Limit (message : string).

Section Frontend.

Variable F : Type.
Variable float : string -> option F.
Variable flt : F -> F -> bool.

(** [str] of a value that is not a string, and the exchange with the
    backend: the prompt and the [checkpoint_id] parameter go out, the decoded
    lines come back. *)
Variable py_str : Py.value -> string.
Variable request : string -> option string -> list sse_data.

(** [create_new_session()], with [str(time.time())] and the formatted date
    of the moment. The state is changed even when the save raises. *)
Definition create_new_session (now date : string) (state : session_state)
    (db : gmap string (list (string * session)))
    : session_state * Py.result (gmap string (list (string * session))) :=
  let session_id := now in
  let session_name := "Chat " +:+ date in
  let sessions :=
    dict_set (chat_sessions state) session_id (mkSession session_name [] None) in
  (mkSessionState sessions (Some session_id),
   save_chat_sessions F float flt sessions 20 db).

Definition delete_session (now date : string) (session_id : string)
    (state : session_state) (db : gmap string (list (string * session)))
    : session_state * Py.result (gmap string (list (string * session))) :=
  if dict_mem session_id (chat_sessions state) then
    let sessions := dict_del (chat_sessions state) session_id in
    if bool_decide (current_session_id state = Some session_id) then
      let '(state', saved) :=
        create_new_session now date (mkSessionState sessions None) db in
      (state',
       try db' <- saved in
       save_chat_sessions F float flt (chat_sessions state') 20 db')
    else
      (mkSessionState sessions (current_session_id state),
       save_chat_sessions F float flt sessions 20 db)
  else (state, Ok db).

(** [f"{u}"] *)
Definition format_value (u : Py.value) : string :=
  match u with
  | VStr s => s
  | _ => py_str u
  end.

Definition anchor (u : Py.value) : string :=
  "<a href='" +:+ format_value u +:+ "' target='_blank'>" +:+ format_value u
  +:+ "</a>".

(** What a [search_results] frame adds to the response. *)
Definition links_block (urls : list Py.value) : string :=
  "<br><div class='assistant-message'>"
  +:+ String.concat "<br>" (map anchor urls) +:+ "</div>".

(** The loop over the lines of the response: the conversation identifier and
    the response text after [received]. There is no branch for [error] and
    none that changes anything for [search_start]; [limit] and [end] leave
    the loop. *)
Fixpoint read_stream (received : list sse_data) (checkpoint_id : option string)
    (full_response : string) : option string * string :=
  match received with
  | [] => (checkpoint_id, full_response)
  | Sent (FCheckpoint id) :: rest => read_stream rest (Some id) full_response
  | Sent (FContent c) :: rest => read_stream rest checkpoint_id (full_response +:+ c)
  | Sent (FSearchStart _) :: rest => read_stream rest checkpoint_id full_response
  | Sent (FSearchResults urls) :: rest =>
      read_stream rest checkpoint_id (full_response +:+ links_block urls)
  | Limit message :: _ => (checkpoint_id, message)
  | Sent FEnd :: _ => (checkpoint_id, full_response)
  | Sent (FError _) :: rest => read_stream rest checkpoint_id full_response
  end.

(** The text the loop builds from frames, none of which leaves the loop:
    the contents and the link blocks, in order. *)
Fixpoint rendered (fs : list frame) : string :=
  match fs with
  | [] => ""
  | FContent c :: rest => c +:+ rendered rest
  | FSearchResults urls :: rest => links_block urls +:+ rendered rest
  | _ :: rest => rendered rest
  end.

(** [params]: the identifier is sent when it is truthy. *)
Definition request_params (checkpoint_id : option string) : option string :=
  match checkpoint_id with
  | None | Some "" => None
  | Some id => Some id
  end.

(** The script on a prompt: the user message is recorded, the response is
    read, the assistant message is recorded, the sessions are saved. An
    exception of the exchange is caught and shown, what was read until then
    is kept; only the look-up of the current session can stop the script
    before anything is changed. *)
Definition on_prompt (prompt : string) (state : session_state)
    (db : gmap string (list (string * session)))
    : Py.result (session_state * Py.result (gmap string (list (string * session)))) :=
  match current_session_id state with
  | None => Raise (KeyError "None")
  | Some id =>
      match Py.lookup id (chat_sessions state) with
      | None => Raise (KeyError id)
      | Some session =>
          let asked := session_messages session ++ [("user", prompt)] in
          let received :=
            request prompt (request_params (session_checkpoint_id session)) in
          let '(checkpoint_id, full_response) :=
            read_stream received (session_checkpoint_id session) "" in
          let session' :=
            mkSession (session_name session)
              (asked ++ [("assistant", full_response)]) checkpoint_id in
          let sessions := dict_set (chat_sessions state) id session' in
          Ok (mkSessionState sessions (Some id),
              save_chat_sessions F float flt sessions 20 db)
      end
  end.

(** The current session is one of the sessions in memory. *)
Definition has_current (state : session_state) : Prop :=
  exists id session,
    current_session_id state = Some id /\
    Py.lookup id (chat_sessions state) = Some session.

End Frontend.

(** [a] stands before [b] in a list. *)
Inductive before {A} : list A -> A -> A -> Prop :=
| before_here (a b : A) (l : list A) : b ∈ l -> before (a :: l) a b
| before_later (x a b : A) (l : list A) : before l a b -> before (x :: l) a b.

(** ** More scenarios *)

Module Example.

(** The search tool answers once and raises from then on; the world counts
    its calls. *)
Definition search_once (args : Py.dict) (w : nat) : Py.result Py.value * nat :=
  match w with
  | 0 => (Ok Scenario.records, 1)
  | _ => (Raise (Failure "Connection timed out"), S w)
  end.

Definition second_call : ToolCall :=
  mkToolCall tavily [("q", VStr "Tokyo forecast")] "call_3".

(** Sessions of which one has a key that is not a number. *)
Definition drafted_sessions : list (string * session) :=
  ("draft", mkSession "Draft" [] None) :: Scenario.saved_sessions.

(** The moment of a new session, and [float] knowing its key too. *)
Definition now : string := "1718001000.0".

Definition float_of_key (key : string) : option Z :=
  if String.eqb key now then Some 171800100000%Z else Scenario.float_of_key key.

Definition state : session_state :=
  mkSessionState Scenario.saved_sessions (Some "1718000900.5").

(** The same sessions, the current one having no conversation yet. *)
Definition state_without_conversation : session_state :=
  mkSessionState Scenario.saved_sessions (Some "1718000400.75").

(** A backend that streams two fragments and ends. *)
Definition astream_events (input : list BaseMessage) (thread_id : string) : event_stream :=
  mkStream [on_chat_model_start; on_chat_model_stream "Sunny, ";
            on_chat_model_stream "21 C."] None.

Definition request (prompt : string) (checkpoint_id : option string) : list sse_data :=
  map Sent (generate_chat_responses "0b9f6c1e-5a3d-4c58-9a51-2f0c1a7e4d10"
              astream_events prompt checkpoint_id).

(** An event whose chunk is a whole message, not a chunk. *)
Definition bad_chunk : event :=
  mkEvent "on_chat_model_stream" "ChatGroq" [("chunk", Msg (AIMessage "lo" []))].

End Example.

(** * Properties of the response generator *)

Section CountLemmas.

Variable p : frame -> bool.

Lemma count_app (a b : list frame) : count p (a ++ b) = count p a + count p b.
Proof. unfold count. by rewrite filter_app, length_app. Qed.

Lemma count_cons (f : frame) (fs : list frame) :
  count p (f :: fs) = (if p f then 1 else 0) + count p fs.
Proof.
  unfold count. destruct (p f) eqn:E.
  - by rewrite filter_cons_True.
  - rewrite filter_cons_False; [done | by rewrite E].
Qed.

Lemma count_none (fs : list frame) :
  Forall (fun f => p f = false) fs -> count p fs = 0.
Proof.
  induction 1 as [|f fs Hf _ IH]; [done|].
  by rewrite count_cons, Hf, IH.
Qed.

Lemma count_zero_Forall (fs : list frame) :
  count p fs = 0 -> Forall (fun f => p f = false) fs.
Proof.
  induction fs as [|f fs IH]; [constructor|].
  rewrite count_cons. destruct (p f) eqn:E; [discriminate|].
  intros H. constructor; [done | by apply IH].
Qed.

End CountLemmas.

Lemma search_starts_in_loop (calls : list ToolCall) :
  Forall in_loop (search_starts calls).
Proof.
  induction calls as [|call rest IH]; simpl; [constructor|].
  destruct (String.eqb _ _); [constructor|]; done.
Qed.

Lemma on_event_in_loop (ev : event) (fs : list frame) :
  on_event ev = Ok fs -> Forall in_loop fs.
Proof.
  unfold on_event.
  destruct (String.eqb (ev_event ev) "on_chat_model_stream").
  { destruct (data_item ev "chunk") as [chunk|]; simpl; [|done].
    destruct (serialise_ai_message_chunk chunk); simpl; [|done].
    intros [= <-]. by repeat constructor. }
  destruct (String.eqb (ev_event ev) "on_chat_model_end").
  { destruct (data_item ev "output"); simpl; [|done].
    intros [= <-]. apply search_starts_in_loop. }
  destruct (_ && _).
  { destruct (data_item ev "output") as [[m|v]|]; simpl; try done.
    - intros [= <-]. constructor.
    - destruct v; intros [= <-]; by repeat constructor. }
  intros [= <-]. constructor.
Qed.

Lemma stream_events_split (evs : list event) (exc : option Py.exn) :
  stream_events evs exc = yielded evs ++ [terminal_frame (turn_exception evs exc)].
Proof.
  induction evs as [|ev rest IH]; simpl.
  - by destruct exc.
  - destruct (on_event ev); [|done]. by rewrite IH, app_assoc.
Qed.

Lemma yielded_in_loop (evs : list event) : Forall in_loop (yielded evs).
Proof.
  induction evs as [|ev rest IH]; simpl; [constructor|].
  destruct (on_event ev) eqn:E; [|constructor].
  apply Forall_app. split; [by eapply on_event_in_loop | done].
Qed.


(** The kinds of frames, by the value of their ["type"] field. *)
Lemma frame_type_kinds (f : frame) :
  (is_checkpoint f = true <-> frame_type f = "checkpoint") /\
  (is_end f = true <-> frame_type f = "end") /\
  (is_error f = true <-> frame_type f = "error") /\
  (is_search_start f = true <-> frame_type f = "search_start") /\
  (is_search_results f = true <-> frame_type f = "search_results").
Proof. destruct f; simpl; repeat split; done. Qed.

Lemma stream_events_no_checkpoint (evs : list event) (exc : option Py.exn) :
  Forall (fun f => is_checkpoint f = false) (stream_events evs exc).
Proof.
  rewrite stream_events_split. apply Forall_app. split.
  - eapply Forall_impl; [apply yielded_in_loop|]. by intros f (?&?&?).
  - repeat constructor. by destruct (turn_exception _ _).
Qed.

(** C1. The [checkpoint] frame carrying the new identifier is the first
    frame exactly when no identifier was supplied; with an identifier there
    is no [checkpoint] frame; a stream never holds two of them, and never
    one after another frame. *)
Theorem checkpoint_frame_first_iff_new
    (new_id : string) (astream_events : list BaseMessage -> string -> event_stream)
    (message : string) (checkpoint_id : option string) :
  let fs := generate_chat_responses new_id astream_events message checkpoint_id in
  (head fs = Some (FCheckpoint new_id) <-> checkpoint_id = None) /\
  (is_checkpoint <$> head fs = Some true <-> checkpoint_id = None) /\
  (checkpoint_id <> None -> count is_checkpoint fs = 0) /\
  count is_checkpoint fs <= 1 /\
  (forall i f, fs !! i = Some f -> is_checkpoint f = true ->
     i = 0 /\ f = FCheckpoint new_id).
Proof.
  unfold generate_chat_responses.
  destruct checkpoint_id as [thread_id|]; cbv zeta;
    set (es := astream_events _ _);
    pose proof (stream_events_no_checkpoint (delivered es) (raised es)) as Hall;
    pose proof (count_none _ _ Hall) as Hc;
    assert (forall i f, stream_events (delivered es) (raised es) !! i = Some f ->
                        is_checkpoint f = true -> False) as Hno
      by (intros i f Hi Hf; rewrite Forall_lookup in Hall;
          specialize (Hall i f Hi); simpl in Hall; congruence).
  - split; [|split; [|split; [|split]]].
    + split; [|done]. intros Hh.
      destruct (stream_events _ _) as [|f fs'] eqn:E; [done|].
      simpl in Hh. injection Hh as ->.
      exfalso. by apply (Hno 0 (FCheckpoint new_id)).
    + split; [|done]. intros Hh.
      destruct (stream_events _ _) as [|f fs'] eqn:E; [done|].
      simpl in Hh. injection Hh as Hf. exfalso. by apply (Hno 0 f).
    + done.
    + lia.
    + intros i f Hi Hf. exfalso. eauto.
  - split; [|split; [|split; [|split]]].
    + done.
    + done.
    + done.
    + rewrite count_cons, Hc. simpl. lia.
    + intros [|i] f Hi Hf.
      * simpl in Hi. by injection Hi as <-.
      * exfalso. simpl in Hi. eauto.
Qed.

Lemma last_snoc_frame (body : list frame) (t : frame) : last (body ++ [t]) = Some t.
Proof. apply last_snoc. Qed.

(** C2. Every stream ends with exactly one terminal frame, which is its last
    frame: [end] when no exception reached the handler, [error] with the
    exception's text when one did; the two never occur together and neither
    occurs twice. *)
Theorem exactly_one_terminal_frame
    (new_id : string) (astream_events : list BaseMessage -> string -> event_stream)
    (message : string) (checkpoint_id : option string) :
  let fs := generate_chat_responses new_id astream_events message checkpoint_id in
  let es := astream_events [HumanMessage message] (default new_id checkpoint_id) in
  let exc := turn_exception (delivered es) (raised es) in
  (exists body, fs = body ++ [terminal_frame exc] /\
     Forall (fun f => is_terminal f = false) body) /\
  count is_end fs + count is_error fs = 1 /\
  match exc with
  | None => last fs = Some FEnd /\ count is_end fs = 1 /\ count is_error fs = 0
  | Some e =>
      last fs = Some (FError (Py.str_exn e)) /\
      count is_error fs = 1 /\ count is_end fs = 0
  end.
Proof.
  intros fs es exc.
  assert (exists body, fs = body ++ [terminal_frame exc] /\
            Forall (fun f => is_end f = false /\ is_error f = false) body)
    as (body & Hfs & Hbody).
  { unfold fs, generate_chat_responses, exc, es.
    destruct checkpoint_id as [thread_id|]; simpl default.
    - exists (yielded (delivered (astream_events [HumanMessage message] thread_id))).
      split; [apply stream_events_split|].
      eapply Forall_impl; [apply yielded_in_loop|]. by intros f (?&?&?).
    - exists (FCheckpoint new_id
                :: yielded (delivered (astream_events [HumanMessage message] new_id))).
      split; [simpl; f_equal; apply stream_events_split|].
      constructor; [done|].
      eapply Forall_impl; [apply yielded_in_loop|]. by intros f (?&?&?). }
  assert (count is_end body = 0) as He
    by (apply count_none; eapply Forall_impl; [exact Hbody|]; by intros f [? ?]).
  assert (count is_error body = 0) as Hr
    by (apply count_none; eapply Forall_impl; [exact Hbody|]; by intros f [? ?]).
  split; [|split].
  - exists body. split; [done|].
    eapply Forall_impl; [exact Hbody|]. intros f [H1 H2].
    unfold is_terminal. by rewrite H1, H2.
  - rewrite Hfs, !count_app, He, Hr. by destruct exc.
  - rewrite Hfs, last_snoc_frame, !count_app, He, Hr. by destruct exc.
Qed.

Lemma extract_urls_omap (items : list Py.value) :
  extract_urls items = omap url_of items.
Proof.
  induction items as [|item rest IH]; [done|].
  destruct item; simpl; try exact IH.
  destruct (Py.lookup "url" d); simpl; [f_equal|]; exact IH.
Qed.

Lemma extract_urls_projection (items items' : list Py.value) :
  map url_of items = map url_of items' -> extract_urls items = extract_urls items'.
Proof.
  rewrite !extract_urls_omap. revert items'.
  induction items as [|item rest IH]; intros [|item' rest']; simpl; try done.
  intros [= H1 H2]. rewrite H1.
  destruct (url_of item'); [f_equal|]; by apply IH.
Qed.

Lemma extract_urls_records (items urls : list Py.value) :
  Forall2 (fun item url => url_of item = Some url) items urls ->
  extract_urls items = urls.
Proof.
  rewrite extract_urls_omap.
  induction 1 as [|item url items urls H _ IH]; simpl; [done|].
  rewrite H. f_equal. exact IH.
Qed.

Lemma on_tool_end_frames (ev : event) (output : object) :
  ev_event ev = "on_tool_end" -> ev_name ev = tavily ->
  Py.lookup "output" (ev_data ev) = Some output ->
  on_event ev =
    match output with
    | Val (VList items) => Ok [FSearchResults (extract_urls items)]
    | _ => Ok []
    end.
Proof.
  intros He Hn Hd. unfold on_event, data_item. rewrite He, Hn, Hd. reflexivity.
Qed.

(** C5. The [search_results] frame of a finished search carries the values
    under ["url"] of the gateway's records, in the gateway's order, and
    nothing else of them: records that agree on their URLs give the same
    frame, and when every record has a URL the frame lists one URL per
    record. *)
Theorem search_results_carry_only_urls (ev : event) (items : list Py.value) :
  ev_event ev = "on_tool_end" -> ev_name ev = tavily ->
  Py.lookup "output" (ev_data ev) = Some (Val (VList items)) ->
  on_event ev = Ok [FSearchResults (omap url_of items)] /\
  (forall urls, Forall2 (fun item url => url_of item = Some url) items urls ->
     on_event ev = Ok [FSearchResults urls]) /\
  (forall items', map url_of items' = map url_of items ->
     on_event (on_tool_end (VList items')) = on_event ev).
Proof.
  intros He Hn Hd.
  pose proof (on_tool_end_frames ev _ He Hn Hd) as Hev. simpl in Hev.
  split; [|split].
  - by rewrite Hev, extract_urls_omap.
  - intros urls H. by rewrite Hev, (extract_urls_records _ _ H).
  - intros items' H. rewrite Hev.
    rewrite (on_tool_end_frames (on_tool_end (VList items')) (Val (VList items')));
      try done.
    by rewrite (extract_urls_projection _ _ H).
Qed.

Lemma search_results_carry_only_urls_witness :
  on_event (on_tool_end
              (VList [VDict [("url", VStr "https://a.example"); ("content", VStr "snippet")];
                      VDict [("title", VStr "B"); ("url", VStr "https://b.example")]]))
    = Ok [FSearchResults [VStr "https://a.example"; VStr "https://b.example"]].
Proof.
  apply (search_results_carry_only_urls
           (on_tool_end
              (VList [VDict [("url", VStr "https://a.example"); ("content", VStr "snippet")];
                      VDict [("title", VStr "B"); ("url", VStr "https://b.example")]]))
           [VDict [("url", VStr "https://a.example"); ("content", VStr "snippet")];
            VDict [("title", VStr "B"); ("url", VStr "https://b.example")]]);
    reflexivity.
Defined.

(** * Properties of the turn engine *)

Lemma append_cons (ch : Ascii.ascii) (a b : string) :
  String ch a +:+ b = String ch (a +:+ b).
Proof. reflexivity. Qed.

Lemma append_assoc (a b c : string) : (a +:+ b) +:+ c = a +:+ (b +:+ c).
Proof. induction a as [|ch a IH]; [done|]. by rewrite !append_cons, IH. Qed.

Lemma append_empty_r (a : string) : a +:+ "" = a.
Proof. induction a as [|ch a IH]; [done|]. by rewrite append_cons, IH. Qed.

Lemma frame_text_app (a b : list frame) :
  frame_text (a ++ b) = frame_text a +:+ frame_text b.
Proof.
  induction a as [|f a IH]; [done|].
  destruct f; simpl; try done. by rewrite IH, append_assoc.
Qed.

Lemma queries_app (a b : list frame) : queries (a ++ b) = queries a ++ queries b.
Proof. induction a as [|f a IH]; [done|]. destruct f; simpl; by rewrite ?IH. Qed.

Lemma url_lists_app (a b : list frame) :
  url_lists (a ++ b) = url_lists a ++ url_lists b.
Proof. induction a as [|f a IH]; [done|]. destruct f; simpl; by rewrite ?IH. Qed.

Lemma assistant_text_app (a b : list BaseMessage) :
  assistant_text (a ++ b) = assistant_text a +:+ assistant_text b.
Proof.
  induction a as [|m a IH]; [done|].
  destruct m; simpl; try done. by rewrite IH, append_assoc.
Qed.

Lemma requested_app (a b : list BaseMessage) :
  requested (a ++ b) = requested a ++ requested b.
Proof.
  induction a as [|m a IH]; [done|].
  destruct m; simpl; try done. by rewrite IH, app_assoc.
Qed.

Lemma open_searches_app (n : nat) (a b : list frame) :
  open_searches n (a ++ b) = open_searches n a ≫= fun m => open_searches m b.
Proof.
  revert n. induction a as [|f a IH]; intros n; [done|].
  destruct f; simpl; try done. destruct n; [done|]. apply IH.
Qed.

(** What the counter of [open_searches] means: no prefix of the stream has
    more [search_results] than [search_start] frames. *)
Lemma open_searches_prefix (fs : list frame) (n m : nat) :
  open_searches n fs = Some m ->
  m + count is_search_results fs = n + count is_search_start fs /\
  forall k, count is_search_results (take k fs) <= n + count is_search_start (take k fs).
Proof.
  revert n. induction fs as [|f fs IH]; intros n H.
  - simpl in H. injection H as <-. split; [done|].
    intros k. rewrite take_nil. unfold count. simpl. lia.
  - assert (forall p, count p (take 0 (f :: fs)) = 0) as H0 by done.
    destruct f; simpl in H;
      try (destruct (IH _ H) as [He Hp]; split;
           [rewrite !count_cons; simpl; lia
           |intros [|k]; [rewrite !H0; lia
                         |simpl take; rewrite !count_cons; simpl; specialize (Hp k); lia]]).
    destruct n as [|n]; [done|].
    destruct (IH _ H) as [He Hp]; split.
    + rewrite !count_cons; simpl; lia.
    + intros [|k]; [rewrite !H0; lia|].
      simpl take; rewrite !count_cons; simpl; specialize (Hp k); lia.
Qed.

Lemma yielded_frames_text (fragments : list string) :
  frame_text (map FContent fragments) = join fragments.
Proof. induction fragments as [|x l IH]; simpl; [done | by rewrite IH]. Qed.

Lemma search_starts_queries (calls : list ToolCall) :
  queries (search_starts calls) = map query_of (search_calls calls).
Proof.
  unfold search_calls. induction calls as [|call rest IH]; [done|].
  simpl. unfold is_search at 1.
  destruct (String.eqb (tc_name call) tavily) eqn:E.
  - rewrite filter_cons_True by done. simpl. by rewrite IH.
  - rewrite filter_cons_False; [done|]. unfold is_search. by rewrite E.
Qed.

Lemma turn_exception_app (a b : list event) (exc : option Py.exn) :
  turn_exception a None = None ->
  turn_exception (a ++ b) exc = turn_exception b exc.
Proof.
  induction a as [|ev a IH]; simpl; [done|].
  destruct (on_event ev); [exact IH | done].
Qed.

Lemma yielded_app (a b : list event) :
  turn_exception a None = None -> yielded (a ++ b) = yielded a ++ yielded b.
Proof.
  induction a as [|ev a IH]; simpl; [done|].
  destruct (on_event ev); [|done]. intros H. by rewrite IH, app_assoc.
Qed.

Lemma fragments_yield (fragments : list string) :
  turn_exception (map on_chat_model_stream fragments) None = None /\
  yielded (map on_chat_model_stream fragments) = map FContent fragments.
Proof.
  induction fragments as [|x l [IH1 IH2]]; [done|].
  split; simpl; [exact IH1 | by rewrite IH2].
Qed.

Lemma results_frames_app (a b : list Py.value) :
  results_frames (a ++ b) = results_frames a ++ results_frames b.
Proof. induction a as [|v a IH]; [done|]. destruct v; simpl; by rewrite ?IH. Qed.

Lemma on_tool_end_yield (output : Py.value) :
  on_event (on_tool_end output) = Ok (results_frames [output]).
Proof. by destruct output. Qed.

Lemma results_frames_url_lists (outputs : list Py.value) :
  Forall (fun v => is_list v = true) outputs ->
  url_lists (results_frames outputs) = map urls_of_output outputs /\
  queries (results_frames outputs) = [] /\
  frame_text (results_frames outputs) = "".
Proof.
  induction 1 as [|v l Hv _ (IH1 & IH2 & IH3)]; [done|].
  destruct v; try done. simpl. by rewrite IH1.
Qed.

Lemma results_frames_plain (outputs : list Py.value) :
  queries (results_frames outputs) = [] /\
  frame_text (results_frames outputs) = "".
Proof. induction outputs as [|v l IH]; [done|]. by destruct v. Qed.

Lemma search_starts_plain (calls : list ToolCall) :
  url_lists (search_starts calls) = [] /\ frame_text (search_starts calls) = "".
Proof.
  induction calls as [|call rest IH]; [done|]. simpl.
  by destruct (String.eqb _ _).
Qed.

Lemma contents_plain (fragments : list string) :
  url_lists (map FContent fragments) = [] /\ queries (map FContent fragments) = [].
Proof. induction fragments as [|x l IH]; [done|]. done. Qed.

Lemma open_searches_contents (n : nat) (fragments : list string) :
  open_searches n (map FContent fragments) = Some n.
Proof. induction fragments as [|x l IH]; [done | exact IH]. Qed.

Lemma open_searches_starts (n : nat) (calls : list ToolCall) :
  open_searches n (search_starts calls) = Some (n + length (search_calls calls)).
Proof.
  unfold search_calls, is_search. revert n.
  induction calls as [|call rest IH]; intros n; simpl; [f_equal; lia|].
  destruct (String.eqb (tc_name call) tavily) eqn:E.
  - rewrite filter_cons_True by done. simpl. rewrite IH. f_equal. lia.
  - rewrite filter_cons_False; [apply IH|]. by rewrite E.
Qed.

Lemma open_searches_results (n : nat) (outputs : list Py.value) :
  Forall (fun v => is_list v = true) outputs ->
  open_searches (length outputs + n) (results_frames outputs) = Some n.
Proof.
  induction 1 as [|v l Hv _ IH]; [done|].
  by destruct v.
Qed.

Lemma all_lists_app (a b : list (ToolCall * Py.value)) :
  all_lists (a ++ b) = true -> all_lists a = true /\ all_lists b = true.
Proof.
  unfold all_lists. rewrite fmap_app, forallb_app. apply andb_true_iff.
Qed.

Lemma all_lists_Forall (a : list (ToolCall * Py.value)) :
  all_lists a = true -> Forall (fun v => is_list v = true) a.*2.
Proof.
  unfold all_lists. intros H. apply Forall_forall. intros v Hv.
  rewrite forallb_forall in H. apply H. by apply list_elem_of_In.
Qed.

Lemma references_issued_app (issued : list string) (a b : list BaseMessage) :
  references_issued issued (a ++ b) =
  references_issued issued a
  && references_issued (issued ++ flat_map issued_by a) b.
Proof.
  revert issued. induction a as [|m a IH]; intros issued; simpl.
  - by rewrite app_nil_r.
  - by rewrite IH, andb_assoc, app_assoc.
Qed.

Lemma references_issued_weaken (issued issued' : list string) (h : list BaseMessage) :
  issued ⊆ issued' -> references_issued issued h = true ->
  references_issued issued' h = true.
Proof.
  revert issued issued'. induction h as [|m h IH]; intros issued issued' Hsub; [done|].
  simpl. rewrite !andb_true_iff. intros [H1 H2]. split.
  - destruct m; try done. apply bool_decide_eq_true.
    apply bool_decide_eq_true in H1. by apply Hsub.
  - apply (IH (issued ++ issued_by m)); [|done].
    intros x. rewrite !elem_of_app. intros [?|?]; [left; by apply Hsub | by right].
Qed.




Section TurnEngineProperties.

Context {World : Type}.
Variable llm_with_tools : list BaseMessage -> World -> llm_run * World.
Variable search_tool : Py.dict -> World -> Py.result Py.value * World.
Variable py_str : Py.value -> string.

Local Abbreviation model := (model World llm_with_tools).
Local Abbreviation tool_node_loop := (tool_node_loop World search_tool py_str).
Local Abbreviation tool_node := (tool_node World search_tool py_str).
Local Abbreviation step := (step World llm_with_tools search_tool py_str).
Local Abbreviation run := (run World llm_with_tools search_tool py_str).
Local Abbreviation graph_run := (graph_run World llm_with_tools search_tool py_str).

(** *** The two nodes *)

Lemma model_run (msgs : list BaseMessage) (w : World) :
  let r := model msgs w in
  let answer := (llm_with_tools msgs w).1 in
  nr_invoked r = [] /\
  nr_world r = (llm_with_tools msgs w).2 /\
  turn_exception (nr_events r) None = None /\
  match completion answer with
  | Ok calls =>
      nr_update r = Ok [AIMessage (join (fragments answer)) calls] /\
      yielded (nr_events r) = map FContent (fragments answer) ++ search_starts calls
  | Raise e =>
      nr_update r = Raise (HTTPException 500 (Py.str_exn e)) /\
      yielded (nr_events r) = map FContent (fragments answer)
  end.
Proof.
  unfold model. destruct (llm_with_tools msgs w) as [[fr done_] w']. simpl.
  destruct (fragments_yield fr) as [Hc Hy].
  destruct done_ as [calls|e]; simpl.
  - repeat split.
    + by rewrite turn_exception_app.
    + rewrite yielded_app by done. rewrite Hy. simpl. by rewrite app_nil_r.
  - by repeat split.
Qed.

Lemma tool_node_loop_run (calls : list ToolCall) (w : World) :
  let r := tool_node_loop calls w in
  turn_exception (nr_events r) None = None /\
  yielded (nr_events r) = results_frames (nr_invoked r).*2 /\
  (forall update, nr_update r = Ok update ->
     (nr_invoked r).*1 = search_calls calls /\
     update = map (tool_message py_str) (nr_invoked r)).
Proof.
  unfold search_calls.
  induction calls as [|call rest IH] in w |- *.
  { simpl. split; [done|]. split; [done|]. by intros ? [= <-]. }
  simpl. unfold is_search at 1.
  destruct (String.eqb (tc_name call) tavily) eqn:E.
  - rewrite filter_cons_True by done.
    destruct (search_tool (tc_args call) w) as [[out|e] w'] eqn:Es; simpl.
    + destruct (IH w') as (H1 & H2 & H3). rewrite !on_tool_end_yield.
      split; [exact H1|]. split.
      * rewrite H2. by destruct out.
      * intros update Hu.
        destruct (nr_update _) as [tool_messages|] eqn:Eu; [|done].
        simpl in Hu. injection Hu as <-.
        destruct (H3 _ eq_refl) as [H4 H5]. split; f_equal; [exact H4 | exact H5].
    + by repeat split.
  - rewrite filter_cons_False; [apply IH|]. unfold is_search. by rewrite E.
Qed.

(** *** One step of the graph *)

Lemma run_S (n : nat) (c : config World) : run (S n) c = step (run n c).
Proof. reflexivity. Qed.

Lemma step_finished (c : config World) : finished c = true -> step c = c.
Proof.
  unfold finished, step. destruct (failure c); [done|].
  by destruct (at_node c).
Qed.

Lemma run_finished (n : nat) (c : config World) :
  finished c = true -> run n c = c.
Proof.
  intros H. induction n as [|n IH]; [done|].
  by rewrite run_S, IH, step_finished.
Qed.

Lemma run_add (n m : nat) (c : config World) : run (n + m) c = run n (run m c).
Proof.
  induction n as [|n IH]; [done|].
  change (S n + m) with (S (n + m)). by rewrite !run_S, IH.
Qed.

Lemma tools_router_snoc (msgs : list BaseMessage) (text : string)
    (calls : list ToolCall) :
  tools_router (msgs ++ [AIMessage text calls]) =
  Ok (match calls with [] => NEnd | _ :: _ => NToolNode end).
Proof.
  unfold tools_router, last_message. rewrite last_snoc. simpl. by destruct calls.
Qed.

(** The [model] node ran: either the answer is appended and the router
    chooses the next node, or the turn fails. *)
Lemma step_model (c : config World) :
  failure c = None -> at_node c = NModel ->
  let answer := (llm_with_tools (messages c) (world c)).1 in
  let r := model (messages c) (world c) in
  step c =
  match completion answer with
  | Ok calls =>
      mkConfig (match calls with [] => NEnd | _ :: _ => NToolNode end)
        (messages c ++ [AIMessage (join (fragments answer)) calls])
        (nr_world r) (events c ++ nr_events r) (invoked c) None
  | Raise e =>
      mkConfig NModel (messages c) (nr_world r) (events c ++ nr_events r)
        (invoked c) (Some (HTTPException 500 (Py.str_exn e)))
  end.
Proof.
  intros Hf Hn. cbv zeta.
  destruct (model_run (messages c) (world c)) as (Hi & _ & _ & Hu).
  unfold step. rewrite Hf, Hn. simpl run_node. rewrite Hi, app_nil_r.
  destruct (completion _) as [calls|e]; destruct Hu as [Hu _]; rewrite Hu.
  - unfold add_messages. simpl next_node. by rewrite tools_router_snoc.
  - done.
Qed.

(** The [tool_node] node ran on a history that ends with an assistant
    message. *)
Lemma step_tools (c : config World) (pre : list BaseMessage) (text : string)
    (calls : list ToolCall) :
  failure c = None -> at_node c = NToolNode ->
  messages c = pre ++ [AIMessage text calls] ->
  let r := tool_node_loop calls (world c) in
  step c =
  match nr_update r with
  | Ok update =>
      mkConfig NModel (messages c ++ update) (nr_world r)
        (events c ++ nr_events r) (invoked c ++ nr_invoked r) None
  | Raise e =>
      mkConfig NToolNode (messages c) (nr_world r)
        (events c ++ nr_events r) (invoked c ++ nr_invoked r)
        (Some (HTTPException 500 (Py.str_exn e)))
  end.
Proof.
  intros Hf Hn Hm. cbv zeta. unfold step. rewrite Hf, Hn. simpl run_node.
  unfold tool_node, last_message. rewrite Hm, last_snoc. simpl.
  by destruct (nr_update _).
Qed.


(** *** The invariant is kept *)

Lemma assistant_text_tool_messages (inv : list (ToolCall * Py.value)) :
  assistant_text (map (tool_message py_str) inv) = "" /\
  requested (map (tool_message py_str) inv) = [].
Proof. induction inv as [|x l IH]; [done | exact IH]. Qed.

Lemma references_tool_messages (issued : list string)
    (inv : list (ToolCall * Py.value)) :
  (forall call, call ∈ inv.*1 -> tc_id call ∈ issued) ->
  references_issued issued (map (tool_message py_str) inv) = true.
Proof.
  induction inv as [|x l IH]; intros H; [done|].
  simpl. rewrite app_nil_r. apply andb_true_iff. split.
  - apply bool_decide_eq_true, H. simpl. apply list_elem_of_here.
  - apply IH. intros call Hc. apply H. simpl. by apply list_elem_of_further.
Qed.

Lemma turn_inv_start (m0 : list BaseMessage) (w : World) :
  turn_inv m0 (mkConfig entry_point m0 w [] [] None).
Proof.
  split; [done|]. split; [done|]. split; [done|]. intros _.
  exists []. simpl. by rewrite app_nil_r.
Qed.

Lemma turn_inv_step (m0 : list BaseMessage) (c : config World) :
  turn_inv m0 c -> turn_inv m0 (step c).
Proof.
  intros (Hclean & Hurls & Hrefs & Hlive).
  destruct (failure c) eqn:Hf.
  { rewrite step_finished by (unfold finished; by rewrite Hf).
    repeat split; try done. by rewrite Hf. }
  destruct (Hlive eq_refl) as (appended & Hm & Htext & Hq & Hnode).
  destruct (at_node c) eqn:Hn.
  - (* the model node *)
    rewrite (step_model c Hf Hn).
    destruct (model_run (messages c) (world c)) as (_ & _ & Hc' & Hu).
    destruct (completion _) as [calls|e]; destruct Hu as [_ Hy].
    + destruct (contents_plain (fragments (llm_with_tools (messages c) (world c)).1))
        as [Hcu Hcq].
      destruct (search_starts_plain calls) as [Hsu Hst].
      split; [|split; [|split]].
      * simpl. by rewrite turn_exception_app.
      * simpl. rewrite yielded_app by done.
        by rewrite url_lists_app, Hy, url_lists_app, Hcu, Hsu, app_nil_r.
      * simpl. intros H0. by rewrite references_issued_app, (Hrefs H0).
      * intros _.
        exists (appended ++ [AIMessage (join (fragments (llm_with_tools (messages c) (world c)).1)) calls]).
        simpl. rewrite yielded_app by done. rewrite Hy.
        split; [by rewrite Hm, app_assoc|].
        split.
        { rewrite !frame_text_app, Htext, yielded_frames_text, Hst.
          rewrite assistant_text_app. simpl. by rewrite !append_empty_r. }
        split.
        { rewrite !queries_app, Hq, Hcq, search_starts_queries.
          rewrite requested_app. simpl. by rewrite app_nil_r, map_app. }
        destruct Hnode as [Hinv Hopen].
        assert (all_lists (invoked c) = true ->
                open_searches 0
                  (yielded (events c)
                   ++ map FContent (fragments (llm_with_tools (messages c) (world c)).1)
                   ++ search_starts calls)
                = Some (length (search_calls calls))) as Hopen'.
        { intros Hl. rewrite open_searches_app, (Hopen Hl). simpl.
          rewrite open_searches_app, open_searches_contents. simpl.
          by rewrite open_searches_starts. }
        destruct calls as [|call calls].
        { split; [|split].
          - rewrite requested_app. simpl. by rewrite app_nil_r.
          - exact Hopen'.
          - by exists appended, (join (fragments (llm_with_tools (messages c) (world c)).1)). }
        exists appended, (join (fragments (llm_with_tools (messages c) (world c)).1)),
          (call :: calls).
        by repeat split.
    + split; [|split; [|split]]; simpl.
      * by rewrite turn_exception_app.
      * rewrite yielded_app by done.
        destruct (contents_plain (fragments (llm_with_tools (messages c) (world c)).1))
          as [Hcu _].
        by rewrite url_lists_app, Hy, Hcu, app_nil_r.
      * done.
      * done.
  - (* the tool node *)
    destruct Hnode as (pre & text & calls & Happ & Hne & Hinv & Hopen).
    assert (messages c = (m0 ++ pre) ++ [AIMessage text calls]) as Hm'
      by (by rewrite Hm, Happ, app_assoc).
    rewrite (step_tools c (m0 ++ pre) text calls Hf Hn Hm').
    destruct (tool_node_loop_run calls (world c)) as (Hc' & Hy & Hu).
    assert (url_lists (yielded (events c ++ nr_events (tool_node_loop calls (world c))))
            = url_lists (results_frames
                           (invoked c ++ nr_invoked (tool_node_loop calls (world c))).*2))
      as Hurls'.
    { rewrite yielded_app by done.
      by rewrite url_lists_app, Hurls, Hy, fmap_app, results_frames_app, url_lists_app. }
    destruct (nr_update _) as [update|e] eqn:Eu.
    + destruct (Hu _ eq_refl) as [Hfst Hupd].
      destruct (assistant_text_tool_messages (nr_invoked (tool_node_loop calls (world c))))
        as [Hat Hrq].
      destruct (results_frames_plain (nr_invoked (tool_node_loop calls (world c))).*2)
        as [Hrq' Hrt].
      split; [|split; [|split]]; simpl.
      * by rewrite turn_exception_app.
      * exact Hurls'.
      * intros H0. rewrite references_issued_app, (Hrefs H0). simpl.
        rewrite Hupd. apply references_tool_messages.
        intros call Hcall. rewrite Hfst in Hcall.
        rewrite Hm', flat_map_app, elem_of_app. right. simpl.
        rewrite app_nil_r. apply list_elem_of_fmap. exists call. split; [done|].
        unfold search_calls in Hcall. by apply list_elem_of_filter in Hcall as [_ ?].
      * intros _. exists (appended ++ update). simpl.
        rewrite yielded_app by done. rewrite Hy.
        split; [by rewrite Hm, app_assoc|].
        split.
        { by rewrite frame_text_app, Htext, Hrt, assistant_text_app, Hupd, Hat. }
        split.
        { rewrite queries_app, Hq, Hrq', requested_app, Hupd, Hrq.
          by rewrite !app_nil_r. }
        split.
        { rewrite fmap_app, Hinv, Hfst, requested_app, Hupd, Hrq, app_nil_r.
          rewrite Happ, requested_app. simpl. by rewrite app_nil_r. }
        intros Hl. apply all_lists_app in Hl as [Hl1 Hl2].
        apply all_lists_Forall in Hl2.
        rewrite open_searches_app, (Hopen Hl1). simpl.
        rewrite <- Hfst, length_fmap.
        rewrite <- (length_fmap snd), <- (Nat.add_0_r (length _)).
        by apply open_searches_results.
    + split; [|split; [|split]]; simpl.
      * by rewrite turn_exception_app.
      * exact Hurls'.
      * done.
      * done.
  - (* the end *)
    rewrite step_finished by (unfold finished; by rewrite Hf, Hn).
    repeat split; try done. intros _. exists appended. by rewrite Hn.
Qed.

Lemma turn_inv_run (m0 : list BaseMessage) (w : World) (fuel : nat) :
  turn_inv m0 (run fuel (mkConfig entry_point m0 w [] [] None)).
Proof.
  induction fuel as [|fuel IH]; [apply turn_inv_start|].
  rewrite run_S. by apply turn_inv_step.
Qed.


(** *** The endpoint *)

Variable uuid4 : World -> string * World.

Local Abbreviation chat_stream :=
  (chat_stream World llm_with_tools search_tool py_str uuid4).

(** The frames of a finished request: the checkpoint frame of a new
    conversation, what the loop yielded, the terminal frame. *)
Lemma chat_stream_Some (fuel : nat) (message : string)
    (checkpoint_id : option string)
    (store : gmap string (list BaseMessage)) (w : World) (t : turn World) :
  chat_stream fuel message checkpoint_id store w = Some t ->
  let new_id := (uuid4 w).1 in
  let w0 := match checkpoint_id with None => (uuid4 w).2 | Some _ => w end in
  let thread_id := default new_id checkpoint_id in
  let c := graph_run fuel store w0 [HumanMessage message] thread_id in
  final t = c /\ finished c = true /\
  store_after t = <[thread_id := messages c]> store /\
  turn_inv (load store thread_id ++ [HumanMessage message]) c /\
  frames t =
    match checkpoint_id with
    | None => [FCheckpoint new_id]
    | Some _ => []
    end ++ yielded (events c) ++ [terminal_frame (failure c)].
Proof.
  unfold chat_stream. destruct (uuid4 w) as [new_id w1]. simpl.
  set (w0 := match checkpoint_id with None => w1 | Some _ => w end).
  set (c := graph_run fuel store w0 _ _).
  destruct (finished c) eqn:Hfin; [|done]. intros [= <-]. simpl.
  assert (turn_inv (load store (default new_id checkpoint_id) ++ [HumanMessage message]) c)
    as Hinv by apply turn_inv_run.
  repeat split; try done; try apply Hinv.
  unfold generate_chat_responses.
  assert (stream_events (events c) (failure c)
          = yielded (events c) ++ [terminal_frame (failure c)]) as Hs.
  { rewrite stream_events_split. do 2 f_equal.
    destruct Hinv as (Hclean & _).
    rewrite <- (app_nil_r (events c)) at 1. by rewrite turn_exception_app. }
  destruct checkpoint_id as [thread_id|]; simpl; by rewrite <- Hs.
Qed.


(** C3, amended. In a stream that ends with [end], the [content] frames
    spell the texts of the assistant messages of the turn, in order; the
    last of these messages is the final answer, and the frames spell
    exactly it when the messages before it carry no text. *)
Theorem content_frames_spell_assistant_messages (fuel : nat) (message : string)
    (checkpoint_id : option string)
    (store : gmap string (list BaseMessage)) (w : World) (t : turn World) :
  chat_stream fuel message checkpoint_id store w = Some t ->
  failure (final t) = None ->
  exists earlier answer,
    messages (final t) =
      load store (default (uuid4 w).1 checkpoint_id)
        ++ [HumanMessage message] ++ earlier ++ [AIMessage answer []] /\
    last (frames t) = Some FEnd /\
    frame_text (frames t) = assistant_text earlier +:+ answer /\
    (assistant_text earlier = "" -> frame_text (frames t) = answer).
Proof.
  intros Ht Hf. apply chat_stream_Some in Ht. cbv zeta in Ht.
  destruct Ht as (Hc & Hfin & _ & Hinv & Hfr).
  rewrite <- Hc in Hfin, Hinv, Hfr. clear Hc.
  destruct Hinv as (_ & _ & _ & Hlive).
  destruct (Hlive Hf) as (appended & Hm & Htext & _ & Hnode).
  unfold finished in Hfin. rewrite Hf in Hfin.
  destruct (at_node (final t)); try done.
  destruct Hnode as (_ & _ & earlier & answer & ->).
  exists earlier, answer.
  assert (frame_text (frames t) = assistant_text earlier +:+ answer) as Hspell.
  { rewrite Hfr, Hf, !frame_text_app, Htext, assistant_text_app. simpl.
    rewrite !append_empty_r. by destruct checkpoint_id. }
  split; [by rewrite Hm, <- !app_assoc|].
  split; [by rewrite Hfr, Hf, !app_assoc, last_snoc|].
  split; [done|].
  intros He. by rewrite Hspell, He.
Qed.

(** C4, amended. In a stream that ends with [end] and whose searches all
    returned lists: the search calls were invoked in the order they were
    requested; the [search_start] frames carry their queries, and the
    [search_results] frames the URLs of their outputs, in that order;
    there are as many of one as of the other, and no prefix of the stream
    holds more [search_results] than [search_start] frames, so that the
    k-th [search_results] frame comes after the k-th [search_start]. *)
Theorem search_frames_paired_in_request_order (fuel : nat) (message : string)
    (checkpoint_id : option string)
    (store : gmap string (list BaseMessage)) (w : World) (t : turn World) :
  chat_stream fuel message checkpoint_id store w = Some t ->
  failure (final t) = None ->
  all_lists (invoked (final t)) = true ->
  exists appended,
    messages (final t) =
      load store (default (uuid4 w).1 checkpoint_id)
        ++ [HumanMessage message] ++ appended /\
    (invoked (final t)).*1 = requested appended /\
    queries (frames t) = map query_of (requested appended) /\
    url_lists (frames t) = map urls_of_output (invoked (final t)).*2 /\
    count is_search_results (frames t) = count is_search_start (frames t) /\
    forall k, count is_search_results (take k (frames t))
              <= count is_search_start (take k (frames t)).
Proof.
  intros Ht Hf Hl. apply chat_stream_Some in Ht. cbv zeta in Ht.
  destruct Ht as (Hc & Hfin & _ & Hinv & Hfr).
  rewrite <- Hc in Hfin, Hinv, Hfr. clear Hc.
  destruct Hinv as (_ & Hurls & _ & Hlive).
  destruct (Hlive Hf) as (appended & Hm & _ & Hq & Hnode).
  unfold finished in Hfin. rewrite Hf in Hfin.
  destruct (at_node (final t)); try done.
  destruct Hnode as (Hinv & Hopen & _).
  exists appended.
  assert (open_searches 0 (frames t) = Some 0) as Ho.
  { rewrite Hfr, Hf. destruct checkpoint_id; simpl;
      by rewrite open_searches_app, (Hopen Hl). }
  destruct (open_searches_prefix _ _ _ Ho) as [Hcount Hprefix].
  split; [by rewrite Hm, <- !app_assoc|].
  split; [done|].
  split.
  { rewrite Hfr, Hf, !queries_app, Hq. simpl. rewrite app_nil_r.
    by destruct checkpoint_id. }
  split.
  { rewrite Hfr, Hf, !url_lists_app, Hurls. simpl. rewrite app_nil_r.
    destruct (results_frames_url_lists _ (all_lists_Forall _ Hl)) as [-> _].
    by destruct checkpoint_id. }
  split; [lia|]. intros k. specialize (Hprefix k). lia.
Qed.


(** *** The tool node *)

Lemma tool_node_loop_skip (before after : list ToolCall) (call : ToolCall) (w : World) :
  is_search call = false ->
  tool_node_loop (before ++ call :: after) w = tool_node_loop (before ++ after) w.
Proof.
  intros Hc. induction before as [|b before IH] in w |- *; simpl.
  - unfold is_search in Hc. by rewrite Hc.
  - destruct (String.eqb (tc_name b) tavily); [|apply IH].
    destruct (search_tool (tc_args b) w) as [[out|e] w']; [|done].
    by rewrite IH.
Qed.

Lemma invoked_are_searches (calls : list ToolCall) (w : World) :
  Forall (fun call => is_search call = true) (nr_invoked (tool_node_loop calls w)).*1.
Proof.
  induction calls as [|call rest IH] in w |- *; simpl; [constructor|].
  destruct (String.eqb (tc_name call) tavily) eqn:E; [|apply IH].
  destruct (search_tool (tc_args call) w) as [[out|e] w']; simpl; [|constructor].
  constructor; [exact E | apply IH].
Qed.

(** C6. A tool call whose name is not the search tool's is skipped: the
    tool node behaves as if the call were not in the list (same events,
    same invocations, same messages or exception, same world), the call is
    never invoked, no tool-result message carries its name, and a list
    made of it alone gives no invocation, no message and no exception. *)
Theorem unknown_tool_call_skipped (before after : list ToolCall) (call : ToolCall)
    (history : list BaseMessage) (text : string) (w : World) :
  is_search call = false ->
  tool_node_loop (before ++ call :: after) w = tool_node_loop (before ++ after) w /\
  tool_node (history ++ [AIMessage text (before ++ call :: after)]) w
    = tool_node (history ++ [AIMessage text (before ++ after)]) w /\
  (call ∉ (nr_invoked (tool_node_loop (before ++ call :: after) w)).*1) /\
  (forall update,
     nr_update (tool_node_loop (before ++ call :: after) w) = Ok update ->
     length update = length (search_calls (before ++ after)) /\
     Forall (fun m => exists content tool_call_id,
                        m = ToolMessage content tool_call_id tavily) update) /\
  tool_node_loop [call] w = mkNodeRun [] [] (Ok []) w.
Proof.
  intros Hc. pose proof (tool_node_loop_skip before after call w Hc) as Hskip.
  split; [exact Hskip|]. split; [|split; [|split]].
  - unfold tool_node, last_message. rewrite !last_snoc. simpl. by rewrite Hskip.
  - intros Hin. pose proof (invoked_are_searches (before ++ call :: after) w) as Hall.
    rewrite Forall_forall in Hall. specialize (Hall call Hin). congruence.
  - intros update Hu. rewrite Hskip in Hu.
    destruct (tool_node_loop_run (before ++ after) w) as (_ & _ & Hok).
    destruct (Hok update Hu) as [Hfst ->].
    split; [by rewrite length_map, <- Hfst, length_fmap|].
    pose proof (invoked_are_searches (before ++ after) w) as Hall.
    apply Forall_forall. intros m Hm.
    apply list_elem_of_fmap in Hm as ([c out] & -> & Hin).
    exists (py_str out), (tc_id c). unfold tool_message. simpl. f_equal.
    rewrite Forall_forall in Hall.
    assert (c ∈ (nr_invoked (tool_node_loop (before ++ after) w)).*1) as Hc'
      by (apply list_elem_of_fmap; by exists (c, out)).
    specialize (Hall c Hc'). unfold is_search in Hall. by apply String.eqb_eq.
  - simpl. unfold is_search in Hc. by rewrite Hc.
Qed.



(** *** The loop between the model and the tools *)










End TurnEngineProperties.

(** * The theorems at work on the scenarios *)

(** C3 as stated fails: the model says something while it asks for a search,
    the stream ends with [end], and the [content] frames spell more than the
    final answer. *)
Lemma content_frames_exceed_final_answer :
  exists t,
    chat_stream nat Scenario.llm_talkative Scenario.search_ok Scenario.py_str
      Scenario.uuid4 3 Scenario.question None ∅ 0 = Some t /\
    last (frames t) = Some FEnd /\
    last (messages (final t)) = Some (AIMessage "Sunny, 21 C." []) /\
    frame_text (frames t) = "Let me check.Sunny, 21 C." /\
    frame_text (frames t) <> "Sunny, 21 C.".
Proof.
  eexists. split; [reflexivity|]. vm_compute. by repeat split.
Qed.

Lemma content_frames_spell_assistant_messages_witness :
  exists t,
    chat_stream nat Scenario.llm_quiet Scenario.search_ok Scenario.py_str
      Scenario.uuid4 3 Scenario.question None ∅ 0 = Some t /\
    exists earlier answer,
      messages (final t) =
        load ∅ (default (Scenario.uuid4 0).1 None)
          ++ [HumanMessage Scenario.question] ++ earlier ++ [AIMessage answer []] /\
      last (frames t) = Some FEnd /\
      frame_text (frames t) = assistant_text earlier +:+ answer /\
      (assistant_text earlier = "" -> frame_text (frames t) = answer).
Proof.
  eexists. split; [reflexivity|].
  apply (content_frames_spell_assistant_messages
           Scenario.llm_quiet Scenario.search_ok Scenario.py_str Scenario.uuid4
           3 Scenario.question None ∅ 0);
    reflexivity.
Defined.

(** C4 as stated fails. The search hands back a text instead of a list: the
    stream ends with [end] and its [search_start] frame has no
    [search_results] frame. The search raises: the stream ends with [error]
    right after the [search_start] frame. *)
Lemma search_start_without_search_results :
  (exists t,
     chat_stream nat Scenario.llm_quiet Scenario.search_gives_text Scenario.py_str
       Scenario.uuid4 3 Scenario.question None ∅ 0 = Some t /\
     frames t = [FCheckpoint "0b9f6c1e-5a3d-4c58-9a51-2f0c1a7e4d10";
                 FSearchStart (VStr "Tokyo weather");
                 FContent "Sunny, "; FContent "21 C."; FEnd] /\
     count is_search_start (frames t) = 1 /\
     count is_search_results (frames t) = 0) /\
  (exists t,
     chat_stream nat Scenario.llm_quiet Scenario.search_raises Scenario.py_str
       Scenario.uuid4 2 Scenario.question None ∅ 0 = Some t /\
     frames t = [FCheckpoint "0b9f6c1e-5a3d-4c58-9a51-2f0c1a7e4d10";
                 FSearchStart (VStr "Tokyo weather");
                 FError "500: Connection timed out"] /\
     count is_search_start (frames t) = 1 /\
     count is_search_results (frames t) = 0).
Proof.
  split; (eexists; split; [reflexivity|]; vm_compute; by repeat split).
Qed.

Lemma search_frames_paired_in_request_order_witness :
  exists t,
    chat_stream nat Scenario.llm_talkative Scenario.search_ok Scenario.py_str
      Scenario.uuid4 3 Scenario.question None ∅ 0 = Some t /\
    exists appended,
      messages (final t) =
        load ∅ (default (Scenario.uuid4 0).1 None)
          ++ [HumanMessage Scenario.question] ++ appended /\
      (invoked (final t)).*1 = requested appended /\
      queries (frames t) = map query_of (requested appended) /\
      url_lists (frames t) = map urls_of_output (invoked (final t)).*2 /\
      count is_search_results (frames t) = count is_search_start (frames t) /\
      forall k, count is_search_results (take k (frames t))
                <= count is_search_start (take k (frames t)).
Proof.
  eexists. split; [reflexivity|].
  apply (search_frames_paired_in_request_order
           Scenario.llm_talkative Scenario.search_ok Scenario.py_str Scenario.uuid4
           3 Scenario.question None ∅ 0);
    reflexivity.
Defined.

Lemma unknown_tool_call_skipped_witness :
  tool_node_loop nat Scenario.search_ok Scenario.py_str
    ([Scenario.weather_call] ++ Scenario.calculator_call :: []) 0
  = tool_node_loop nat Scenario.search_ok Scenario.py_str
      ([Scenario.weather_call] ++ []) 0.
Proof.
  apply (unknown_tool_call_skipped Scenario.search_ok Scenario.py_str
           [Scenario.weather_call] [] Scenario.calculator_call [] "" 0).
  reflexivity.
Defined.




(** * Properties of the saved sessions *)

Lemma dict_set_fresh {V} (d : list (string * V)) (k : string) (v : V) :
  k ∉ d.*1 -> dict_set d k v = d ++ [(k, v)].
Proof.
  induction d as [|[k' v'] d IH]; simpl; [done|].
  intros Hk. apply not_elem_of_cons in Hk as [Hne Hk].
  destruct (String.eqb k k') eqn:E; [by apply String.eqb_eq in E|].
  by rewrite IH.
Qed.

Lemma dict_of_distinct {V} (pairs : list (string * V)) :
  NoDup pairs.*1 -> dict_of pairs = pairs.
Proof.
  unfold dict_of. intros H.
  assert (forall acc : list (string * V), NoDup (acc ++ pairs).*1 ->
            foldl (fun d kv => dict_set d kv.1 kv.2) acc pairs = acc ++ pairs) as Hgen.
  { clear H. induction pairs as [|[k v] rest IH]; intros acc Hnd; simpl.
    - by rewrite app_nil_r.
    - rewrite dict_set_fresh.
      + rewrite IH; [by rewrite <- app_assoc|]. by rewrite <- app_assoc.
      + rewrite fmap_app in Hnd. apply NoDup_app in Hnd as (_ & Hd & _).
        intros Hin. apply (Hd k Hin). simpl. apply list_elem_of_here. }
  by apply (Hgen []).
Qed.

Lemma slice_to_take {A} (n : Z) (l : list A) :
  (0 <= n)%Z -> slice_to n l = take (Z.to_nat n) l.
Proof. intros H. unfold slice_to. by rewrite (proj2 (Z.ltb_ge n 0) H). Qed.

Section SaveChatSessionsProperties.

Variable F : Type.
Variable float : string -> option F.
Variable flt : F -> F -> bool.

Hypothesis flt_asym : forall a b, flt a b = true -> flt b a = false.
Hypothesis flt_chain :
  forall a b c, flt a b = false -> flt b c = false -> flt a c = false.

Local Abbreviation sort_keys := (sort_keys F float).
Local Abbreviation insert_desc := (insert_desc F flt).
Local Abbreviation sorted_reverse := (sorted_reverse F flt).
Local Abbreviation not_below := (not_below F flt).

Lemma sort_keys_ok (items : list (string * session)) :
  Forall (fun key => is_Some (float key)) items.*1 ->
  exists keyed,
    sort_keys items = Ok keyed /\ keyed.*2 = items /\
    Forall (fun p => float p.2.1 = Some p.1) keyed.
Proof.
  induction items as [|x rest IH]; intros H; [by exists []|].
  apply Forall_cons in H as [[key Hkey] Hrest].
  destruct (IH Hrest) as (keyed & Hk & Hsnd & Hall).
  exists ((key, x) :: keyed). simpl. rewrite Hkey, Hk. simpl.
  split; [done|]. split; [f_equal; exact Hsnd|]. by constructor.
Qed.

Lemma insert_desc_perm (x : F * (string * session))
    (l : list (F * (string * session))) :
  insert_desc x l ≡ₚ x :: l.
Proof.
  induction l as [|y l IH]; simpl; [done|].
  destruct (flt x.1 y.1); [|done]. by rewrite IH, Permutation_swap.
Qed.

Lemma sorted_reverse_perm (l : list (F * (string * session))) :
  sorted_reverse l ≡ₚ l.
Proof.
  induction l as [|x l IH]; simpl; [done|].
  by rewrite insert_desc_perm, IH.
Qed.

Lemma insert_desc_sorted (x : F * (string * session))
    (l : list (F * (string * session))) :
  StronglySorted not_below l -> StronglySorted not_below (insert_desc x l).
Proof.
  induction l as [|y l IH]; simpl; intros Hs.
  - repeat constructor.
  - apply StronglySorted_cons in Hs as [Hy Hl].
    destruct (flt x.1 y.1) eqn:E.
    + apply StronglySorted_cons. split; [|by apply IH].
      rewrite insert_desc_perm. constructor; [|done].
      unfold not_below. by apply flt_asym.
    + apply StronglySorted_cons. split; [|by apply StronglySorted_cons].
      constructor; [done|].
      eapply Forall_impl; [exact Hy|]. intros z Hz. by eapply flt_chain.
Qed.

Lemma sorted_reverse_sorted (l : list (F * (string * session))) :
  StronglySorted not_below (sorted_reverse l).
Proof.
  induction l as [|x l IH]; simpl; [constructor | by apply insert_desc_sorted].
Qed.

(** C10. With session keys that are numbers, a mapping of more than
    [max_sessions] sessions is saved as exactly [max_sessions] of its
    entries, each one as it was, and no entry left out has a key above the
    key of an entry kept; a mapping of at most [max_sessions] sessions is
    saved whole. *)
Theorem save_chat_sessions_keeps_newest (sessions : list (string * session))
    (max_sessions : Z) (db : gmap string (list (string * session))) :
  NoDup sessions.*1 ->
  (0 <= max_sessions)%Z ->
  Forall (fun key => is_Some (float key)) sessions.*1 ->
  exists saved,
    save_chat_sessions F float flt sessions max_sessions db
      = Ok (<["sessions" := saved]> db) /\
    if (Z.of_nat (length sessions) >? max_sessions)%Z then
      Z.of_nat (length saved) = max_sessions /\
      NoDup saved.*1 /\
      (forall entry, entry ∈ saved -> entry ∈ sessions) /\
      (forall kept dropped key_kept key_dropped,
         kept ∈ saved -> dropped ∈ sessions -> dropped ∉ saved ->
         float kept.1 = Some key_kept -> float dropped.1 = Some key_dropped ->
         flt key_kept key_dropped = false)
    else saved = sessions.
Proof.
  intros Hnd Hmax Hkeys. unfold save_chat_sessions, sessions_to_save.
  destruct (Z.of_nat (length sessions) >? max_sessions)%Z eqn:Hlen;
    [|by exists sessions].
  apply Z.gtb_lt in Hlen.
  destruct (sort_keys_ok sessions Hkeys) as (keyed & -> & Hsnd & Hfloat).
  simpl. rewrite slice_to_take by done.
  set (n := Z.to_nat max_sessions).
  pose proof (sorted_reverse_perm keyed) as Hperm.
  pose proof (sorted_reverse_sorted keyed) as Hsorted.
  assert ((sorted_reverse keyed).*2 ≡ₚ sessions) as Hperm2
    by (by rewrite Hperm, Hsnd).
  assert (NoDup (take n (sorted_reverse keyed).*2).*1) as Hnd'.
  { apply (sublist_NoDup _ (sorted_reverse keyed).*2.*1).
    - by rewrite Hperm2.
    - apply fmap_sublist, sublist_take. }
  exists (take n (sorted_reverse keyed).*2). rewrite dict_of_distinct by done.
  split; [done|]. split; [|split; [done|split]].
  - rewrite length_take_le; [unfold n; lia|].
    rewrite Hperm2. unfold n. lia.
  - intros entry He. rewrite <- Hperm2. by eapply subseteq_take.
  - intros kept dropped fk fd Hk Hd Hnot Hfk Hfd.
    rewrite <- Hperm2 in Hd.
    rewrite <- (take_drop n (sorted_reverse keyed)), fmap_app in Hd.
    rewrite <- fmap_take in Hk, Hnot.
    apply elem_of_app in Hd as [Hd|Hd]; [done|].
    apply list_elem_of_fmap in Hk as ([k1 e1] & -> & Hk).
    apply list_elem_of_fmap in Hd as ([k2 e2] & -> & Hd).
    rewrite <- (take_drop n (sorted_reverse keyed)) in Hsorted.
    pose proof (StronglySorted_app_1_elem_of _ _ _ _ _ Hsorted Hk Hd) as Hr.
    unfold not_below in Hr. simpl in Hr, Hfk, Hfd.
    assert (forall p, p ∈ sorted_reverse keyed -> float p.2.1 = Some p.1) as Hall.
    { intros p Hp. rewrite Hperm in Hp. rewrite Forall_forall in Hfloat. by apply Hfloat. }
    assert (float e1.1 = Some k1) as H1
      by (apply (Hall (k1, e1)); by eapply subseteq_take).
    assert (float e2.1 = Some k2) as H2
      by (apply (Hall (k2, e2)); by eapply subseteq_drop).
    congruence.
Qed.

End SaveChatSessionsProperties.

Lemma save_chat_sessions_keeps_newest_witness :
  exists saved,
    save_chat_sessions Z Scenario.float_of_key Z.ltb Scenario.saved_sessions 2 ∅
      = Ok (<["sessions" := saved]> ∅) /\
    if (Z.of_nat (length Scenario.saved_sessions) >? 2)%Z then
      Z.of_nat (length saved) = 2%Z /\
      NoDup saved.*1 /\
      (forall entry, entry ∈ saved -> entry ∈ Scenario.saved_sessions) /\
      (forall kept dropped key_kept key_dropped,
         kept ∈ saved -> dropped ∈ Scenario.saved_sessions -> dropped ∉ saved ->
         Scenario.float_of_key kept.1 = Some key_kept ->
         Scenario.float_of_key dropped.1 = Some key_dropped ->
         Z.ltb key_kept key_dropped = false)
    else saved = Scenario.saved_sessions.
Proof.
  apply (save_chat_sessions_keeps_newest Z Scenario.float_of_key Z.ltb).
  - intros a b. rewrite Z.ltb_lt, Z.ltb_ge. lia.
  - intros a b c. rewrite !Z.ltb_ge. lia.
  - apply (bool_decide_unpack _). by vm_compute.
  - lia.
  - repeat constructor; by eexists.
Defined.

(** * Further properties of the backend *)

Lemma on_event_unhandled (ev : event) : handled ev = false -> on_event ev = Ok [].
Proof.
  unfold handled, on_event. cbv zeta.
  destruct (String.eqb (ev_event ev) "on_chat_model_stream"); [done|].
  destruct (String.eqb (ev_event ev) "on_chat_model_end"); [done|].
  simpl. by intros ->.
Qed.

(** X1. Events the loop has no branch for (other kinds, other tools) leave
    no trace: the stream is the one of the handled events alone. *)
Theorem unhandled_events_leave_no_trace (evs : list event) (exc : option Py.exn) :
  stream_events (filter (fun ev => handled ev = true) evs) exc = stream_events evs exc.
Proof.
  induction evs as [|ev rest IH]; [done|].
  destruct (handled ev) eqn:E.
  - rewrite filter_cons_True by done. simpl. by rewrite IH.
  - rewrite filter_cons_False by (by rewrite E). simpl.
    by rewrite (on_event_unhandled ev E).
Qed.

(** X2. An exception of the loop body ends the stream on the spot: the
    frames yielded before it stay, then comes the [error] frame with its
    text; later events and the way the graph ended change nothing. *)
Theorem handler_exception_ends_stream (before after : list event) (ev : event)
    (exc : option Py.exn) (e : Py.exn) :
  turn_exception before None = None ->
  on_event ev = Raise e ->
  stream_events (before ++ ev :: after) exc
    = yielded before ++ [FError (Py.str_exn e)].
Proof.
  intros Hb He. rewrite stream_events_split.
  rewrite yielded_app, turn_exception_app by done. simpl. rewrite He.
  by rewrite app_nil_r.
Qed.

Lemma handler_exception_ends_stream_witness :
  stream_events
    ([on_chat_model_start; on_chat_model_stream "Hel"]
       ++ Example.bad_chunk :: [on_chat_model_stream "!"]) None
  = yielded [on_chat_model_start; on_chat_model_stream "Hel"]
      ++ [FError (Py.str_exn (TypeError "Unsupported type: AIMessage"))].
Proof.
  apply (handler_exception_ends_stream
           [on_chat_model_start; on_chat_model_stream "Hel"]
           [on_chat_model_stream "!"] Example.bad_chunk None
           (TypeError "Unsupported type: AIMessage")); reflexivity.
Defined.

Lemma search_starts_map (calls : list ToolCall) :
  search_starts calls = map (fun call => FSearchStart (query_of call)) (search_calls calls).
Proof.
  unfold search_calls, is_search. induction calls as [|call rest IH]; [done|].
  simpl. destruct (String.eqb (tc_name call) tavily) eqn:E.
  - rewrite filter_cons_True by done. simpl. by rewrite IH.
  - rewrite filter_cons_False by (by rewrite E). exact IH.
Qed.

(** X3. A finished model call yields one [search_start] frame per call of
    the search tool, in the order of the calls, each with the call's
    ["query"] argument or the empty string when it has none; calls of other
    tools, and an output without tool calls, yield nothing. *)
Theorem search_start_frames_of_response (ev : event) (output : object) :
  ev_event ev = "on_chat_model_end" ->
  Py.lookup "output" (ev_data ev) = Some output ->
  on_event ev
    = Ok (map (fun call => FSearchStart (Py.get (tc_args call) "query" (VStr "")))
            (search_calls (getattr_tool_calls output))).
Proof.
  intros He Ho. unfold on_event, data_item. rewrite He, Ho. simpl.
  by rewrite search_starts_map.
Qed.

Lemma search_start_frames_of_response_witness :
  on_event
    (on_chat_model_end
       (AIMessage "" [Scenario.weather_call; Scenario.calculator_call; Example.second_call]))
  = Ok [FSearchStart (VStr "Tokyo weather"); FSearchStart (VStr "")].
Proof.
  apply (search_start_frames_of_response
           (on_chat_model_end
              (AIMessage "" [Scenario.weather_call; Scenario.calculator_call;
                             Example.second_call]))
           (Msg (AIMessage "" [Scenario.weather_call; Scenario.calculator_call;
                               Example.second_call])));
    reflexivity.
Defined.

(** X4. The module loads exactly when both keys are set and not empty, the
    Tavily key being checked first; so the health probe of a running backend
    always reports both keys as configured. *)
Theorem running_backend_reports_keys (tavily_key groq_key : option string) :
  (validate_keys tavily_key groq_key = Ok tt <->
   configured tavily_key = true /\ configured groq_key = true) /\
  (configured tavily_key = false ->
   validate_keys tavily_key groq_key
   = Raise (ValueError "TAVILY_API_KEY not found in environment variables. Please add it to your .env file.")) /\
  match validate_keys tavily_key groq_key with
  | Ok _ => health_check tavily_key groq_key = mkHealth "healthy" true true
  | Raise _ => True
  end.
Proof.
  unfold validate_keys, health_check.
  destruct (configured tavily_key), (configured groq_key); simpl;
    repeat split; try done; by intros [? ?].
Qed.

Section TurnEngineFurther.

Context {World : Type}.
Variable llm_with_tools : list BaseMessage -> World -> llm_run * World.
Variable search_tool : Py.dict -> World -> Py.result Py.value * World.
Variable py_str : Py.value -> string.
Variable uuid4 : World -> string * World.

Local Abbreviation model := (model World llm_with_tools).
Local Abbreviation tool_node_loop := (tool_node_loop World search_tool py_str).
Local Abbreviation tool_node := (tool_node World search_tool py_str).
Local Abbreviation step := (step World llm_with_tools search_tool py_str).
Local Abbreviation run := (run World llm_with_tools search_tool py_str).
Local Abbreviation graph_run := (graph_run World llm_with_tools search_tool py_str).
Local Abbreviation chat_stream :=
  (chat_stream World llm_with_tools search_tool py_str uuid4).

Lemma tool_node_loop_sequence (a b : list ToolCall) (w : World) :
  tool_node_loop (a ++ b) w =
  match nr_update (tool_node_loop a w) with
  | Raise _ => tool_node_loop a w
  | Ok messages_a =>
      mkNodeRun
        (nr_events (tool_node_loop a w)
           ++ nr_events (tool_node_loop b (nr_world (tool_node_loop a w))))
        (nr_invoked (tool_node_loop a w)
           ++ nr_invoked (tool_node_loop b (nr_world (tool_node_loop a w))))
        (try messages_b <- nr_update (tool_node_loop b (nr_world (tool_node_loop a w))) in
         Ok (messages_a ++ messages_b))
        (nr_world (tool_node_loop b (nr_world (tool_node_loop a w))))
  end.
Proof.
  induction a as [|call rest IH] in w |- *; simpl.
  - destruct (tool_node_loop b w) as [evs inv [update|e] w']; done.
  - destruct (String.eqb (tc_name call) tavily); [|apply IH].
    destruct (search_tool (tc_args call) w) as [[out|e] w']; [|done].
    rewrite IH.
    destruct (nr_update (tool_node_loop rest w')) as [update|e] eqn:Eu; simpl.
    + by destruct (nr_update (tool_node_loop b _)).
    + by rewrite Eu.
Qed.

(** X5. The tool node runs its calls one after the other: on [a ++ b] it
    does what it does on [a] and then, if no search of [a] raised, what it
    does on [b] from the world [a] left, events, invocations and messages
    being appended; if a search of [a] raised, [b] is not touched. *)
Theorem tool_node_loop_app (a b : list ToolCall) (w : World) :
  tool_node_loop (a ++ b) w =
  let ra := tool_node_loop a w in
  match nr_update ra with
  | Raise _ => ra
  | Ok messages_a =>
      let rb := tool_node_loop b (nr_world ra) in
      mkNodeRun (nr_events ra ++ nr_events rb) (nr_invoked ra ++ nr_invoked rb)
        (try messages_b <- nr_update rb in Ok (messages_a ++ messages_b))
        (nr_world rb)
  end.
Proof. apply tool_node_loop_sequence. Qed.

(** X6. When a search raises, the tool node fails as a whole: its result is
    the exception as a 500 with the exception's text, the messages of the
    searches that had succeeded before are not returned, and the calls after
    the failing one are not invoked. *)
Theorem failing_search_aborts_tool_node (history : list BaseMessage) (text : string)
    (before after : list ToolCall) (call : ToolCall) (w w' : World)
    (answered : list BaseMessage) (e : Py.exn) :
  nr_update (tool_node_loop before w) = Ok answered ->
  is_search call = true ->
  search_tool (tc_args call) (nr_world (tool_node_loop before w)) = (Raise e, w') ->
  let r := tool_node (history ++ [AIMessage text (before ++ call :: after)]) w in
  nr_update r = Raise (HTTPException 500 (Py.str_exn e)) /\
  nr_invoked r = nr_invoked (tool_node_loop before w) /\
  nr_events r = nr_events (tool_node_loop before w) ++ [on_tool_start (tc_args call)] /\
  nr_world r = w'.
Proof.
  intros Hb Hc Hs. cbv zeta.
  unfold tool_node, last_message. rewrite last_snoc. simpl.
  rewrite tool_node_loop_sequence, Hb. simpl.
  unfold is_search in Hc. rewrite Hc, Hs. simpl.
  by rewrite app_nil_r.
Qed.



Lemma model_answer (msgs : list BaseMessage) (w w' : World)
    (streamed : list string) (calls : list ToolCall) :
  llm_with_tools msgs w = (mkLlmRun streamed (Ok calls), w') ->
  nr_update (model msgs w) = Ok [AIMessage (join streamed) calls] /\
  nr_world (model msgs w) = w' /\
  turn_exception (nr_events (model msgs w)) None = None /\
  yielded (nr_events (model msgs w)) = map FContent streamed ++ search_starts calls.
Proof.
  intros H.
  destruct (model_run llm_with_tools msgs w) as (_ & Hw & Hc & Hu).
  rewrite H in Hw, Hu. simpl in Hw, Hu. by destruct Hu.
Qed.

Lemma chat_stream_finished (fuel : nat) (message : string)
    (checkpoint_id : option string)
    (store : gmap string (list BaseMessage)) (w : World) :
  let new_id := (uuid4 w).1 in
  let w0 := match checkpoint_id with None => (uuid4 w).2 | Some _ => w end in
  finished (graph_run fuel store w0 [HumanMessage message] (default new_id checkpoint_id))
    = true ->
  exists t, chat_stream fuel message checkpoint_id store w = Some t.
Proof.
  unfold chat_stream. destruct (uuid4 w) as [id wu]. simpl. intros ->. by eexists.
Qed.

(** X8. A turn of one round of searches: the model asks for tools, every
    search returns, the model then answers without tools. Three node runs
    finish the turn, and the stream is, in this order: the checkpoint frame
    of a new conversation, the fragments of the first response, one
    [search_start] frame for each of its search calls, then the
    [search_results] frames of the outputs that are lists, the fragments of
    the answer, [end]. The history gains the first response, the tool
    messages and the answer. *)
Theorem one_search_round_stream (message : string) (checkpoint_id : option string)
    (store : gmap string (list BaseMessage)) (w w1 w3 : World)
    (streamed1 streamed2 : list string) (call : ToolCall) (calls : list ToolCall)
    (update : list BaseMessage) :
  let new_id := (uuid4 w).1 in
  let w0 := match checkpoint_id with None => (uuid4 w).2 | Some _ => w end in
  let h0 := load store (default new_id checkpoint_id) ++ [HumanMessage message] in
  let first := AIMessage (join streamed1) (call :: calls) in
  let r := tool_node_loop (call :: calls) w1 in
  llm_with_tools h0 w0 = (mkLlmRun streamed1 (Ok (call :: calls)), w1) ->
  nr_update r = Ok update ->
  llm_with_tools ((h0 ++ [first]) ++ update) (nr_world r)
    = (mkLlmRun streamed2 (Ok []), w3) ->
  exists t,
    chat_stream 3 message checkpoint_id store w = Some t /\
    frames t =
      match checkpoint_id with None => [FCheckpoint new_id] | Some _ => [] end
      ++ map FContent streamed1 ++ search_starts (call :: calls)
      ++ results_frames (nr_invoked r).*2
      ++ map FContent streamed2 ++ [FEnd] /\
    messages (final t)
      = ((h0 ++ [first]) ++ update) ++ [AIMessage (join streamed2) []] /\
    world (final t) = w3.
Proof.
  intros new_id w0 h0 first r H1 Hr H2.
  destruct (model_answer _ _ _ _ _ H1) as (Hu1 & Hw1 & Hc1 & Hy1).
  destruct (model_answer _ _ _ _ _ H2) as (Hu2 & Hw2 & Hc2 & Hy2).
  destruct (tool_node_loop_run search_tool py_str (call :: calls) w1) as (Hct & Hyt & _).
  fold r in Hct, Hyt.
  set (c0 := mkConfig entry_point h0 w0 [] [] None).
  assert (step c0
          = mkConfig NToolNode (h0 ++ [first]) w1 (nr_events (model h0 w0)) [] None) as S1.
  { rewrite (step_model llm_with_tools search_tool py_str c0) by done.
    simpl. rewrite H1. simpl. by rewrite Hw1. }
  assert (step (step c0)
          = mkConfig NModel ((h0 ++ [first]) ++ update) (nr_world r)
              (nr_events (model h0 w0) ++ nr_events r) (nr_invoked r) None) as S2.
  { rewrite S1.
    rewrite (step_tools llm_with_tools search_tool py_str _ h0 (join streamed1)
               (call :: calls)) by done.
    cbn [world messages events invoked]. fold r. by rewrite Hr. }
  assert (step (step (step c0))
          = mkConfig NEnd
              (((h0 ++ [first]) ++ update) ++ [AIMessage (join streamed2) []]) w3
              ((nr_events (model h0 w0) ++ nr_events r)
                 ++ nr_events (model ((h0 ++ [first]) ++ update) (nr_world r)))
              (nr_invoked r) None) as S3.
  { rewrite S2.
    rewrite (step_model llm_with_tools search_tool py_str) by done.
    simpl. rewrite H2. simpl. by rewrite Hw2. }
  assert (graph_run 3 store w0 [HumanMessage message] (default new_id checkpoint_id)
          = step (step (step c0))) as Hg by reflexivity.
  destruct (chat_stream_finished 3 message checkpoint_id store w) as [t Ht].
  { cbv zeta. fold new_id. fold w0. by rewrite Hg, S3. }
  exists t. split; [exact Ht|].
  apply (chat_stream_Some llm_with_tools search_tool py_str uuid4) in Ht.
  cbv zeta in Ht. fold new_id in Ht. fold w0 in Ht.
  destruct Ht as (Hc & _ & _ & _ & Hfr).
  rewrite Hg, S3 in Hc, Hfr. rewrite Hc. cbn [messages world events failure] in *.
  split; [|done]. rewrite Hfr. f_equal.
  assert (turn_exception (nr_events (model h0 w0) ++ nr_events r) None = None) as Hc12
    by (by rewrite turn_exception_app).
  rewrite !yielded_app, Hy1, Hyt, Hy2 by done.
  cbn [terminal_frame search_starts]. by rewrite app_nil_r, <- !app_assoc.
Qed.


End TurnEngineFurther.

Lemma failing_search_aborts_tool_node_witness :
  let r := tool_node nat Example.search_once Scenario.py_str
             ([HumanMessage Scenario.question]
                ++ [AIMessage "" ([Scenario.weather_call]
                                    ++ Example.second_call :: [Scenario.weather_call])]) 0 in
  nr_update r = Raise (HTTPException 500 (Py.str_exn (Failure "Connection timed out"))) /\
  nr_invoked r
    = nr_invoked (tool_node_loop nat Example.search_once Scenario.py_str
                    [Scenario.weather_call] 0) /\
  nr_events r
    = nr_events (tool_node_loop nat Example.search_once Scenario.py_str
                   [Scenario.weather_call] 0)
        ++ [on_tool_start (tc_args Example.second_call)] /\
  nr_world r = 2.
Proof.
  apply (failing_search_aborts_tool_node Example.search_once Scenario.py_str
           [HumanMessage Scenario.question] "" [Scenario.weather_call]
           [Scenario.weather_call] Example.second_call 0 2
           [ToolMessage "[...]" "call_1" tavily] (Failure "Connection timed out"));
    reflexivity.
Defined.


Lemma one_search_round_stream_witness :
  exists t,
    chat_stream nat Scenario.llm_talkative Scenario.search_ok Scenario.py_str
      Scenario.uuid4 3 Scenario.question None ∅ 0 = Some t /\
    frames t =
      [FCheckpoint (Scenario.uuid4 0).1]
      ++ map FContent ["Let me "; "check."]
      ++ search_starts [Scenario.weather_call; Scenario.calculator_call]
      ++ results_frames
           (nr_invoked
              (tool_node_loop nat Scenario.search_ok Scenario.py_str
                 [Scenario.weather_call; Scenario.calculator_call] 1)).*2
      ++ map FContent ["Sunny, "; "21 C."] ++ [FEnd] /\
    messages (final t)
      = (((load ∅ (default (Scenario.uuid4 0).1 None) ++ [HumanMessage Scenario.question])
            ++ [AIMessage (join ["Let me "; "check."])
                  [Scenario.weather_call; Scenario.calculator_call]])
           ++ [ToolMessage "[...]" "call_1" tavily])
          ++ [AIMessage (join ["Sunny, "; "21 C."]) []] /\
    world (final t) = 2.
Proof.
  apply (one_search_round_stream
           Scenario.llm_talkative Scenario.search_ok Scenario.py_str Scenario.uuid4
           Scenario.question None ∅ 0 1 2 ["Let me "; "check."] ["Sunny, "; "21 C."]
           Scenario.weather_call [Scenario.calculator_call]
           [ToolMessage "[...]" "call_1" tavily]);
    reflexivity.
Defined.

(** * Further properties of the frontend *)

Lemma lookup_dict_set_eq {V} (d : list (string * V)) (k : string) (v : V) :
  Py.lookup k (dict_set d k v) = Some v.
Proof.
  induction d as [|[k' v'] d IH]; simpl.
  - by rewrite String.eqb_refl.
  - destruct (String.eqb k k') eqn:E; simpl; by rewrite E.
Qed.

Lemma lookup_dict_set_ne {V} (d : list (string * V)) (k k' : string) (v : V) :
  k' <> k -> Py.lookup k' (dict_set d k v) = Py.lookup k' d.
Proof.
  intros Hne. induction d as [|[k0 v0] d IH]; simpl.
  - by rewrite (proj2 (String.eqb_neq k' k) Hne).
  - destruct (String.eqb k k0) eqn:E; simpl; [|by rewrite IH].
    apply String.eqb_eq in E as <-.
    by rewrite (proj2 (String.eqb_neq k' k) Hne).
Qed.

Lemma lookup_dict_del_eq {V} (d : list (string * V)) (k : string) :
  Py.lookup k (dict_del d k) = None.
Proof.
  induction d as [|[k' v'] d IH]; simpl; [done|].
  destruct (String.eqb k k') eqn:E; simpl; [done | by rewrite E].
Qed.

Lemma lookup_dict_del_ne {V} (d : list (string * V)) (k k' : string) :
  k' <> k -> Py.lookup k' (dict_del d k) = Py.lookup k' d.
Proof.
  intros Hne. induction d as [|[k0 v0] d IH]; simpl; [done|].
  destruct (String.eqb k k0) eqn:E; simpl.
  - apply String.eqb_eq in E as <-.
    by rewrite (proj2 (String.eqb_neq k' k) Hne).
  - by rewrite IH.
Qed.

Lemma lookup_elem_of {V} (d : list (string * V)) (k : string) (v : V) :
  NoDup d.*1 -> (k, v) ∈ d -> Py.lookup k d = Some v.
Proof.
  induction d as [|[k' v'] d IH]; simpl; intros Hnd Hin.
  - by apply elem_of_nil in Hin.
  - apply NoDup_cons in Hnd as [Hk' Hnd].
    apply elem_of_cons in Hin as [[= -> ->]|Hin].
    + by rewrite String.eqb_refl.
    + destruct (String.eqb k k') eqn:E; [|by apply IH].
      apply String.eqb_eq in E as ->. exfalso. apply Hk'.
      apply list_elem_of_fmap. by exists (k', v).
Qed.

Lemma lookup_Some_elem_of {V} (d : list (string * V)) (k : string) (v : V) :
  Py.lookup k d = Some v -> (k, v) ∈ d.
Proof.
  induction d as [|[k' v'] d IH]; simpl; [done|].
  destruct (String.eqb k k') eqn:E.
  - apply String.eqb_eq in E as ->. intros [= ->]. apply list_elem_of_here.
  - intros H. by apply list_elem_of_further, IH.
Qed.

Lemma dict_set_keys {V} (d : list (string * V)) (k : string) (v : V) :
  (dict_set d k v).*1 = if dict_mem k d then d.*1 else d.*1 ++ [k].
Proof.
  unfold dict_mem. induction d as [|[k' v'] d IH]; simpl; [done|].
  destruct (String.eqb k k') eqn:E; simpl; [done|].
  change (list_fmap _ _ fst (dict_set d k v)) with (dict_set d k v).*1.
  rewrite IH. by destruct (Py.lookup k d).
Qed.

Lemma dict_mem_keys {V} (d : list (string * V)) (k : string) :
  dict_mem k d = true <-> k ∈ d.*1.
Proof.
  unfold dict_mem. induction d as [|[k' v'] d IH]; simpl.
  - split; [done|]. intros H. by apply elem_of_nil in H.
  - destruct (String.eqb k k') eqn:E.
    + apply String.eqb_eq in E as ->. split; [|done]. intros _. apply list_elem_of_here.
    + apply String.eqb_neq in E. rewrite IH, elem_of_cons.
      split; [by right | by intros [?|?]].
Qed.

Lemma dict_set_NoDup {V} (d : list (string * V)) (k : string) (v : V) :
  NoDup d.*1 -> NoDup (dict_set d k v).*1.
Proof.
  intros Hnd. rewrite dict_set_keys. destruct (dict_mem k d) eqn:E; [done|].
  apply NoDup_app. split; [done|]. split; [|apply NoDup_singleton].
  intros x Hx Hk. apply list_elem_of_singleton in Hk as ->.
  apply dict_mem_keys in Hx. congruence.
Qed.

Lemma dict_set_length {V} (d : list (string * V)) (k : string) (v : V) :
  length (dict_set d k v) <= S (length d).
Proof.
  induction d as [|[k' v'] d IH]; simpl; [lia|].
  destruct (String.eqb k k'); simpl; lia.
Qed.

Lemma dict_of_length {V} (pairs : list (string * V)) :
  length (dict_of pairs) <= length pairs.
Proof.
  unfold dict_of.
  assert (forall acc : list (string * V),
            length (foldl (fun d kv => dict_set d kv.1 kv.2) acc pairs)
            <= length acc + length pairs) as H.
  { induction pairs as [|[k v] rest IH]; intros acc; simpl; [lia|].
    specialize (IH (dict_set acc k v)).
    pose proof (dict_set_length acc k v). lia. }
  apply (H []).
Qed.

Section FrontendProperties.

Variable F : Type.
Variable float : string -> option F.
Variable flt : F -> F -> bool.

Local Abbreviation sort_keys := (sort_keys F float).
Local Abbreviation sorted_reverse := (sorted_reverse F flt).
Local Abbreviation sessions_to_save := (sessions_to_save F float flt).
Local Abbreviation save_chat_sessions := (save_chat_sessions F float flt).
Local Abbreviation create_new_session := (create_new_session F float flt).
Local Abbreviation delete_session := (delete_session F float flt).

(** X9. What is saved is what is loaded back: after a save that did not
    raise, [load_chat_sessions] returns the mapping the save chose (the whole
    mapping when it has at most [max_sessions] entries), and the other keys
    of the shelf are untouched. A shelf that cannot be opened, or that has
    no sessions yet, loads as the empty mapping. *)
Theorem saved_sessions_load_back (sessions : list (string * session))
    (max_sessions : Z) (db db' : gmap string (list (string * session))) :
  save_chat_sessions sessions max_sessions db = Ok db' ->
  sessions_to_save sessions max_sessions = Ok (load_chat_sessions (Ok db')) /\
  (forall key, key <> "sessions" -> db' !! key = db !! key) /\
  ((Z.of_nat (length sessions) <= max_sessions)%Z ->
   load_chat_sessions (Ok db') = sessions) /\
  (forall e, load_chat_sessions (Raise e) = []) /\
  load_chat_sessions (Ok ∅) = [].
Proof.
  unfold save_chat_sessions.
  destruct (sessions_to_save sessions max_sessions) as [saved|e] eqn:Hs; [|done].
  simpl. intros [= <-]. unfold load_chat_sessions. rewrite lookup_insert_eq. simpl.
  split; [done|]. split; [|split; [|done]].
  - intros key Hk. by rewrite lookup_insert_ne.
  - intros Hlen. unfold sessions_to_save in Hs.
    assert ((Z.of_nat (length sessions) >? max_sessions)%Z = false) as Hgt
      by (rewrite Z.gtb_ltb; apply Z.ltb_ge; lia).
    rewrite Hgt in Hs. by injection Hs.
Qed.

Lemma gtb_false (n m : Z) : (n <= m)%Z -> (n >? m)%Z = false.
Proof. intros H. rewrite Z.gtb_ltb. apply Z.ltb_ge. lia. Qed.

Lemma sessions_to_save_length (sessions saved : list (string * session))
    (max_sessions : Z) :
  (0 <= max_sessions)%Z ->
  sessions_to_save sessions max_sessions = Ok saved ->
  (Z.of_nat (length saved) <= max_sessions)%Z.
Proof.
  intros Hmax. unfold sessions_to_save.
  destruct (Z.of_nat (length sessions) >? max_sessions)%Z eqn:Hlen.
  - destruct (sort_keys sessions) as [keyed|e]; [|done]. simpl. intros [= <-].
    rewrite slice_to_take by done.
    pose proof (dict_of_length (take (Z.to_nat max_sessions) (sorted_reverse keyed).*2)).
    pose proof (length_take (sorted_reverse keyed).*2 (Z.to_nat max_sessions)). lia.
  - intros [= <-]. rewrite Z.gtb_ltb in Hlen. apply Z.ltb_ge in Hlen. lia.
Qed.

(** X10. Saving is idempotent for a limit that is not negative: saving again
    what a save wrote, with the same limit, leaves the shelf as it is. *)
Theorem saving_twice_changes_nothing (sessions : list (string * session))
    (max_sessions : Z) (db db' : gmap string (list (string * session))) :
  (0 <= max_sessions)%Z ->
  save_chat_sessions sessions max_sessions db = Ok db' ->
  save_chat_sessions (load_chat_sessions (Ok db')) max_sessions db' = Ok db'.
Proof.
  intros Hmax. unfold save_chat_sessions.
  destruct (sessions_to_save sessions max_sessions) as [saved|e] eqn:Hs; [|done].
  simpl. intros [= <-]. unfold load_chat_sessions. rewrite lookup_insert_eq. simpl.
  pose proof (sessions_to_save_length _ _ _ Hmax Hs) as Hlen.
  unfold sessions_to_save. rewrite gtb_false by done. simpl.
  by rewrite insert_insert_eq.
Qed.

Lemma sort_keys_raise (items : list (string * session)) (key : string) :
  key ∈ items.*1 -> float key = None ->
  exists key',
    key' ∈ items.*1 /\ float key' = None /\
    sort_keys items
    = Raise (ValueError ("could not convert string to float: '" +:+ key' +:+ "'")).
Proof.
  induction items as [|x rest IH]; simpl; intros Hin Hf.
  - by apply elem_of_nil in Hin.
  - destruct (float x.1) as [fx|] eqn:Hx.
    + apply elem_of_cons in Hin as [->|Hin]; [congruence|].
      destruct (IH Hin Hf) as (key' & Hk & Hn & ->).
      exists key'. split; [by apply list_elem_of_further | done].
    + exists x.1. split; [apply list_elem_of_here | done].
Qed.

(** X11. A session key that is not a number does no harm as long as the
    mapping has at most [max_sessions] entries: it is saved whole. Once the
    mapping is larger, the save raises the [ValueError] of such a key and
    the shelf is not written. *)
Theorem non_numeric_key_blocks_pruning (sessions : list (string * session))
    (max_sessions : Z) (db : gmap string (list (string * session))) (key : string) :
  key ∈ sessions.*1 -> float key = None ->
  if (Z.of_nat (length sessions) >? max_sessions)%Z then
    exists key',
      key' ∈ sessions.*1 /\ float key' = None /\
      save_chat_sessions sessions max_sessions db
      = Raise (ValueError ("could not convert string to float: '" +:+ key' +:+ "'"))
  else
    save_chat_sessions sessions max_sessions db = Ok (<["sessions" := sessions]> db).
Proof.
  intros Hin Hf. unfold save_chat_sessions, sessions_to_save.
  destruct (Z.of_nat (length sessions) >? max_sessions)%Z; [|done].
  destruct (sort_keys_raise sessions key Hin Hf) as (key' & Hk & Hn & ->).
  by exists key'.
Qed.

(** *** The order of what is kept *)

Lemma before_elem_of {A} (l : list A) (a b : A) : before l a b -> a ∈ l /\ b ∈ l.
Proof.
  induction 1 as [a b l Hb|x a b l _ [IHa IHb]].
  - split; [apply list_elem_of_here | by apply list_elem_of_further].
  - split; by apply list_elem_of_further.
Qed.

Lemma before_fmap {A B} (f : A -> B) (l : list A) (a b : A) :
  before l a b -> before (f <$> l) (f a) (f b).
Proof.
  induction 1 as [a b l Hb|x a b l _ IH]; simpl.
  - apply before_here. by apply list_elem_of_fmap_2.
  - by apply before_later.
Qed.

Lemma before_fmap_inv {A B} (f : A -> B) (l : list A) (a' b' : B) :
  before (f <$> l) a' b' ->
  exists a b, before l a b /\ f a = a' /\ f b = b'.
Proof.
  intros H. remember (f <$> l) as l' eqn:El. revert l El.
  induction H as [a' b' l' Hb|x' a' b' l' _ IH]; intros [|x l] El; try done.
  - injection El as -> ->.
    apply list_elem_of_fmap in Hb as (b & -> & Hb).
    exists x, b. split; [by apply before_here | done].
  - injection El as -> ->.
    destruct (IH l eq_refl) as (a & b & Hab & <- & <-).
    exists a, b. split; [by apply before_later | done].
Qed.

Lemma before_take {A} (l : list A) (a b : A) (n : nat) :
  NoDup l -> before l a b -> b ∈ take n l -> before (take n l) a b.
Proof.
  intros Hnd Hab. revert n. induction Hab as [a b l Hb|x a b l Hab IH]; intros n Hin.
  - destruct n as [|n]; simpl in *; [by apply elem_of_nil in Hin|].
    apply NoDup_cons in Hnd as [Ha Hnd].
    apply elem_of_cons in Hin as [->|Hin]; [done|]. by apply before_here.
  - destruct n as [|n]; simpl in *; [by apply elem_of_nil in Hin|].
    apply NoDup_cons in Hnd as [Hx Hnd].
    apply elem_of_cons in Hin as [->|Hin].
    + exfalso. apply Hx. by apply before_elem_of in Hab as [_ ?].
    + apply before_later. by apply IH.
Qed.

Lemma before_sorted {A} (R : relation A) (l : list A) (a b : A) :
  StronglySorted R l -> before l a b -> R a b.
Proof.
  intros Hs Hab. induction Hab as [a b l Hb|x a b l _ IH].
  - apply StronglySorted_cons in Hs as [Hall _].
    rewrite Forall_forall in Hall. by apply Hall.
  - apply StronglySorted_cons in Hs as [_ Hs]. by apply IH.
Qed.

Lemma insert_desc_keeps_before (x a b : F * (string * session))
    (l : list (F * (string * session))) :
  before l a b -> before (insert_desc F flt x l) a b.
Proof.
  induction 1 as [a b l Hb|z a b l Hab IH]; simpl.
  - destruct (flt x.1 a.1).
    + apply before_here. rewrite (insert_desc_perm F flt). by apply list_elem_of_further.
    + by apply before_later, before_here.
  - destruct (flt x.1 z.1).
    + by apply before_later.
    + by do 2 apply before_later.
Qed.

Lemma insert_desc_before_not_above (x y : F * (string * session))
    (l : list (F * (string * session))) :
  y ∈ l -> flt x.1 y.1 = false -> before (insert_desc F flt x l) x y.
Proof.
  induction l as [|z l IH]; simpl; intros Hy Hxy.
  - by apply elem_of_nil in Hy.
  - destruct (flt x.1 z.1) eqn:E.
    + apply elem_of_cons in Hy as [->|Hy]; [congruence|].
      by apply before_later, IH.
    + by apply before_here.
Qed.

(** The sort is stable: an item stays before a later one whose key is not
    above its own. *)
Lemma sorted_reverse_stable (l : list (F * (string * session)))
    (a b : F * (string * session)) :
  before l a b -> flt a.1 b.1 = false -> before (sorted_reverse l) a b.
Proof.
  induction 1 as [a b l Hb|z a b l _ IH]; simpl; intros Hab.
  - apply insert_desc_before_not_above; [|done].
    by rewrite (sorted_reverse_perm F flt).
  - by apply insert_desc_keeps_before, IH.
Qed.

Lemma sessions_to_save_pruned (sessions : list (string * session)) (max_sessions : Z) :
  NoDup sessions.*1 ->
  (0 <= max_sessions)%Z ->
  Forall (fun key => is_Some (float key)) sessions.*1 ->
  (max_sessions < Z.of_nat (length sessions))%Z ->
  exists keyed,
    keyed.*2 = sessions /\
    Forall (fun p => float p.2.1 = Some p.1) keyed /\
    sessions_to_save sessions max_sessions
    = Ok (take (Z.to_nat max_sessions) (sorted_reverse keyed)).*2.
Proof.
  intros Hnd Hmax Hkeys Hlen. unfold sessions_to_save.
  rewrite (proj2 (Z.gtb_lt _ _) Hlen).
  destruct (sort_keys_ok F float sessions Hkeys) as (keyed & -> & Hsnd & Hfloat).
  exists keyed. split; [done|]. split; [done|]. simpl.
  rewrite slice_to_take by done. rewrite fmap_take.
  rewrite dict_of_distinct; [done|].
  apply (sublist_NoDup _ (sorted_reverse keyed).*2.*1).
  - by rewrite (sorted_reverse_perm F flt), Hsnd.
  - apply fmap_sublist, sublist_take.
Qed.


Section Ordered.

Hypothesis flt_asym : forall a b, flt a b = true -> flt b a = false.
Hypothesis flt_chain :
  forall a b c, flt a b = false -> flt b c = false -> flt a c = false.

Lemma kept_not_below_dropped (keyed : list (F * (string * session))) (n : nat)
    (kept dropped : string * session) (key_kept key_dropped : F) :
  Forall (fun p => float p.2.1 = Some p.1) keyed ->
  kept ∈ (take n (sorted_reverse keyed)).*2 ->
  dropped ∈ keyed.*2 ->
  dropped ∉ (take n (sorted_reverse keyed)).*2 ->
  float kept.1 = Some key_kept -> float dropped.1 = Some key_dropped ->
  flt key_kept key_dropped = false.
Proof.
  intros Hfloat Hk Hd Hnot Hfk Hfd.
  pose proof (sorted_reverse_perm F flt keyed) as Hperm.
  pose proof (sorted_reverse_sorted F flt flt_asym flt_chain keyed) as Hsorted.
  rewrite <- Hperm in Hd.
  rewrite <- (take_drop n (sorted_reverse keyed)), fmap_app in Hd.
  apply elem_of_app in Hd as [Hd|Hd]; [done|].
  apply list_elem_of_fmap in Hk as ([k1 e1] & -> & Hk).
  apply list_elem_of_fmap in Hd as ([k2 e2] & -> & Hd).
  rewrite <- (take_drop n (sorted_reverse keyed)) in Hsorted.
  pose proof (StronglySorted_app_1_elem_of _ _ _ _ _ Hsorted Hk Hd) as Hr.
  unfold not_below in Hr. simpl in Hr, Hfk, Hfd.
  assert (forall p, p ∈ sorted_reverse keyed -> float p.2.1 = Some p.1) as Hall.
  { intros p Hp. rewrite Hperm in Hp. rewrite Forall_forall in Hfloat. by apply Hfloat. }
  assert (float e1.1 = Some k1) as H1
    by (apply (Hall (k1, e1)); by eapply subseteq_take).
  assert (float e2.1 = Some k2) as H2
    by (apply (Hall (k2, e2)); by eapply subseteq_drop).
  congruence.
Qed.

(** X12. A negative limit is read as a slice from the end: with numeric
    keys, [max_sessions < 0] saves the mapping without its [-max_sessions]
    oldest entries (nothing when there are not that many), whatever the
    size of the mapping. *)
Theorem negative_limit_drops_oldest (sessions : list (string * session))
    (max_sessions : Z) (db : gmap string (list (string * session))) :
  (max_sessions < 0)%Z ->
  NoDup sessions.*1 ->
  Forall (fun key => is_Some (float key)) sessions.*1 ->
  exists saved,
    save_chat_sessions sessions max_sessions db = Ok (<["sessions" := saved]> db) /\
    length saved = Z.to_nat (Z.of_nat (length sessions) + max_sessions) /\
    (forall entry, entry ∈ saved -> entry ∈ sessions) /\
    (forall kept dropped key_kept key_dropped,
       kept ∈ saved -> dropped ∈ sessions -> dropped ∉ saved ->
       float kept.1 = Some key_kept -> float dropped.1 = Some key_dropped ->
       flt key_kept key_dropped = false).
Proof.
  intros Hmax Hnd Hkeys. unfold save_chat_sessions, sessions_to_save.
  assert ((Z.of_nat (length sessions) >? max_sessions)%Z = true) as ->
    by (apply Z.gtb_lt; lia).
  destruct (sort_keys_ok F float sessions Hkeys) as (keyed & -> & Hsnd & Hfloat).
  simpl. unfold slice_to. rewrite (proj2 (Z.ltb_lt _ _) Hmax).
  assert ((sorted_reverse keyed).*2 ≡ₚ sessions) as Hperm
    by (by rewrite (sorted_reverse_perm F flt), Hsnd).
  set (n := Z.to_nat (Z.of_nat (length (sorted_reverse keyed).*2) + max_sessions)).
  assert (NoDup (take n (sorted_reverse keyed).*2).*1) as Hnd'.
  { apply (sublist_NoDup _ (sorted_reverse keyed).*2.*1).
    - by rewrite Hperm.
    - apply fmap_sublist, sublist_take. }
  exists (take n (sorted_reverse keyed).*2). rewrite dict_of_distinct by done.
  split; [done|]. split; [|split].
  - rewrite length_take. unfold n. rewrite Hperm. lia.
  - intros entry He. rewrite <- Hperm. by eapply subseteq_take.
  - intros kept dropped fk fd Hk Hd Hnot. rewrite <- fmap_take in Hk, Hnot.
    rewrite <- Hsnd in Hd. by apply (kept_not_below_dropped keyed n).
Qed.

(** X13. What a pruning save keeps is in the order newest first, and the
    sort is stable: when [a] stood before [b] in the mapping and its key is
    not below the key of [b], then [a] is kept whenever [b] is, and stands
    before it. So of two sessions with equal keys the one inserted first
    wins at the cut. *)
Theorem pruned_sessions_newest_first (sessions : list (string * session))
    (max_sessions : Z) :
  NoDup sessions.*1 ->
  (0 <= max_sessions)%Z ->
  Forall (fun key => is_Some (float key)) sessions.*1 ->
  (max_sessions < Z.of_nat (length sessions))%Z ->
  exists saved,
    sessions_to_save sessions max_sessions = Ok saved /\
    (forall a b key_a key_b,
       before saved a b ->
       float a.1 = Some key_a -> float b.1 = Some key_b ->
       flt key_a key_b = false) /\
    (forall a b key_a key_b,
       before sessions a b ->
       float a.1 = Some key_a -> float b.1 = Some key_b ->
       flt key_a key_b = false ->
       b ∈ saved -> before saved a b).
Proof.
  intros Hnd Hmax Hkeys Hlen.
  destruct (sessions_to_save_pruned sessions max_sessions Hnd Hmax Hkeys Hlen)
    as (keyed & Hsnd & Hfloat & ->).
  set (n := Z.to_nat max_sessions).
  pose proof (sorted_reverse_perm F flt keyed) as Hperm.
  pose proof (sorted_reverse_sorted F flt flt_asym flt_chain keyed) as Hsorted.
  assert (forall p, p ∈ sorted_reverse keyed -> float p.2.1 = Some p.1) as Hall.
  { intros p Hp. rewrite Hperm in Hp. rewrite Forall_forall in Hfloat. by apply Hfloat. }
  assert (NoDup (sorted_reverse keyed)) as Hnds.
  { apply (NoDup_fmap_1 snd), (NoDup_fmap_1 fst). by rewrite Hperm, Hsnd. }
  eexists. split; [done|]. split.
  - intros a b fa fb Hab Ha Hb.
    apply before_fmap_inv in Hab as ([ka ea] & [kb eb] & Hab & <- & <-).
    assert (StronglySorted (not_below F flt) (take n (sorted_reverse keyed))) as Hst.
    { rewrite <- (take_drop n (sorted_reverse keyed)) in Hsorted.
      by apply StronglySorted_app_1_l in Hsorted. }
    pose proof (before_sorted _ _ _ _ Hst Hab) as Hr. unfold not_below in Hr.
    destruct (before_elem_of _ _ _ Hab) as [Hina Hinb].
    apply subseteq_take in Hina, Hinb.
    apply Hall in Hina, Hinb. simpl in *. congruence.
  - intros a b fa fb Hab Ha Hb Hflt Hin.
    rewrite <- Hsnd in Hab.
    apply before_fmap_inv in Hab as ([ka ea] & [kb eb] & Hab & <- & <-).
    destruct (before_elem_of _ _ _ Hab) as [Hina Hinb].
    rewrite Forall_forall in Hfloat.
    pose proof (Hfloat _ Hina) as Hka. pose proof (Hfloat _ Hinb) as Hkb.
    simpl in *.
    assert (ka = fa) as -> by congruence. assert (kb = fb) as -> by congruence.
    assert (before (sorted_reverse keyed) (fa, ea) (fb, eb)) as Hs
      by (by apply sorted_reverse_stable).
    apply (before_fmap snd (take n (sorted_reverse keyed)) (fa, ea) (fb, eb)).
    apply before_take; [done..|].
    apply list_elem_of_fmap in Hin as ([kb' eb'] & Heq & Hin). simpl in Heq. subst eb'.
    assert (kb' = fb) as ->.
    { pose proof (Hall _ (subseteq_take _ _ _ Hin)) as Hk'. simpl in Hk'. congruence. }
    done.
Qed.

(** X14. A new session becomes the current one, empty and without a
    conversation identifier, and the other sessions in memory are as they
    were. When the keys are numbers and the new key is above all the others,
    the save goes through and the new session is in what is saved, however
    many sessions there are. *)
Theorem new_session_is_current_and_saved (now date : string)
    (state : session_state) (db : gmap string (list (string * session)))
    (key_now : F) :
  NoDup (chat_sessions state).*1 ->
  Forall (fun key => is_Some (float key)) (chat_sessions state).*1 ->
  float now = Some key_now ->
  (forall key fk, key ∈ (chat_sessions state).*1 -> key <> now ->
     float key = Some fk -> flt fk key_now = true) ->
  let fresh := mkSession ("Chat " +:+ date) [] None in
  let r := create_new_session now date state db in
  current_session_id r.1 = Some now /\
  Py.lookup now (chat_sessions r.1) = Some fresh /\
  (forall key, key <> now ->
     Py.lookup key (chat_sessions r.1) = Py.lookup key (chat_sessions state)) /\
  exists db',
    r.2 = Ok db' /\
    Py.lookup now (load_chat_sessions (Ok db')) = Some fresh.
Proof.
  intros Hnd Hkeys Hnow Hnewest fresh r.
  unfold r, create_new_session. cbv zeta. fold fresh.
  set (sessions := dict_set (chat_sessions state) now fresh).
  cbn [fst snd current_session_id chat_sessions].
  split; [done|]. split; [apply lookup_dict_set_eq|].
  split; [intros key Hk; by apply lookup_dict_set_ne|].
  assert (NoDup sessions.*1) as Hnd' by (by apply dict_set_NoDup).
  assert (forall key, key ∈ sessions.*1 -> key = now \/ key ∈ (chat_sessions state).*1)
    as Hkeys'.
  { intros key. unfold sessions. rewrite dict_set_keys.
    destruct (dict_mem now (chat_sessions state)); [by right|].
    rewrite elem_of_app, list_elem_of_singleton. naive_solver. }
  assert (Forall (fun key => is_Some (float key)) sessions.*1) as Hnum.
  { apply Forall_forall. intros key Hk. destruct (Hkeys' key Hk) as [->|Hold].
    - by eexists.
    - rewrite Forall_forall in Hkeys. by apply Hkeys. }
  assert ((now, fresh) ∈ sessions) as Hin
    by apply lookup_Some_elem_of, lookup_dict_set_eq.
  unfold save_chat_sessions.
  destruct (Z.of_nat (length sessions) >? 20)%Z eqn:Hlen.
  - apply Z.gtb_lt in Hlen.
    destruct (sessions_to_save_pruned sessions 20 Hnd' ltac:(lia) Hnum Hlen)
      as (keyed & Hsnd & Hfloat & ->).
    simpl. eexists. split; [done|].
    unfold load_chat_sessions. rewrite lookup_insert_eq. simpl.
    set (saved := (take (Z.to_nat 20) (sorted_reverse keyed)).*2).
    assert (forall entry, entry ∈ saved -> entry ∈ sessions) as Hsub.
    { intros entry He. rewrite <- Hsnd, <- (sorted_reverse_perm F flt keyed).
      unfold saved in He. rewrite fmap_take in He. by eapply subseteq_take. }
    assert (NoDup saved.*1) as Hnds.
    { apply (sublist_NoDup _ (sorted_reverse keyed).*2.*1).
      - by rewrite (sorted_reverse_perm F flt), Hsnd.
      - unfold saved. rewrite fmap_take. apply fmap_sublist, sublist_take. }
    destruct (decide (now ∈ saved.*1)) as [Hyes|Hno].
    + apply list_elem_of_fmap in Hyes as ([k v] & Hk & Hv). simpl in Hk. subst k.
      apply lookup_elem_of; [done|].
      pose proof (lookup_elem_of _ _ _ Hnd' (Hsub _ Hv)) as Hl.
      unfold sessions in Hl. rewrite lookup_dict_set_eq in Hl. by injection Hl as ->.
    + exfalso.
      assert (exists kept, kept ∈ saved) as [kept Hkept].
      { destruct saved as [|kept rest] eqn:Es.
        - assert (length saved = Z.to_nat 20) as Hl.
          { unfold saved. rewrite length_fmap, length_take_le; [done|].
            rewrite (sorted_reverse_perm F flt), <- (length_fmap snd), Hsnd. lia. }
          rewrite Es in Hl. simpl in Hl. lia.
        - exists kept. apply list_elem_of_here. }
      assert (kept.1 ∈ sessions.*1) as Hk1
        by (apply list_elem_of_fmap; exists kept; split; [done | by apply Hsub]).
      assert (kept.1 <> now) as Hne.
      { intros Heq. apply Hno. rewrite <- Heq.
        apply list_elem_of_fmap. by exists kept. }
      destruct (Hkeys' _ Hk1) as [?|Hold]; [done|].
      rewrite Forall_forall in Hnum. destruct (Hnum _ Hk1) as [fk Hfk].
      pose proof (Hnewest _ _ Hold Hne Hfk) as Hlt.
      assert (flt fk key_now = false) as Hge.
      { apply (kept_not_below_dropped keyed (Z.to_nat 20) kept (now, fresh)); try done.
        - by rewrite Hsnd.
        - intros Hdrop. apply Hno. apply list_elem_of_fmap. by exists (now, fresh). }
      congruence.
  - unfold sessions_to_save. rewrite Hlen. simpl. eexists. split; [done|].
    unfold load_chat_sessions. rewrite lookup_insert_eq. simpl.
    apply lookup_dict_set_eq.
Qed.


End Ordered.


(** *** The sessions in memory *)

Variable py_str : Py.value -> string.
Variable request : string -> option string -> list sse_data.

Local Abbreviation on_prompt := (on_prompt F float flt py_str request).
Local Abbreviation read_stream := (read_stream py_str).
Local Abbreviation rendered := (rendered py_str).

(** X15. Deleting a session that is not in memory changes nothing and saves
    nothing. Deleting one that is removes it and leaves every other session
    as it was; the current session stays the current one unless it is the
    one deleted, in which case a new empty session takes its place. *)
Theorem delete_session_removes_only_it (now date session_id : string)
    (state : session_state) (db : gmap string (list (string * session))) :
  let r := delete_session now date session_id state db in
  if dict_mem session_id (chat_sessions state) then
    (session_id <> now -> Py.lookup session_id (chat_sessions r.1) = None) /\
    (forall key, key <> session_id -> key <> now ->
       Py.lookup key (chat_sessions r.1) = Py.lookup key (chat_sessions state)) /\
    if bool_decide (current_session_id state = Some session_id) then
      current_session_id r.1 = Some now /\
      Py.lookup now (chat_sessions r.1) = Some (mkSession ("Chat " +:+ date) [] None)
    else
      current_session_id r.1 = current_session_id state /\
      chat_sessions r.1 = dict_del (chat_sessions state) session_id
  else r = (state, Ok db).
Proof.
  unfold delete_session. cbv zeta.
  destruct (dict_mem session_id (chat_sessions state)); [|done].
  destruct (bool_decide (current_session_id state = Some session_id)); simpl.
  - split; [|split; [|split]].
    + intros Hne. by rewrite lookup_dict_set_ne, lookup_dict_del_eq.
    + intros key H1 H2. by rewrite lookup_dict_set_ne, lookup_dict_del_ne.
    + done.
    + apply lookup_dict_set_eq.
  - split; [|split; [|done]].
    + intros _. apply lookup_dict_del_eq.
    + intros key H1 _. by apply lookup_dict_del_ne.
Qed.

(** X16. There is always a current session: creating a session makes one,
    deleting a session keeps one, handling a prompt keeps the one it found;
    so the look-up of the current session at the head of the script finds
    it, and the prompt is handled. *)
Theorem current_session_always_exists :
  (forall now date state db,
     has_current (create_new_session now date state db).1) /\
  (forall now date session_id state db,
     has_current state ->
     has_current (delete_session now date session_id state db).1) /\
  (forall prompt state db,
     has_current state ->
     exists state' saved,
       on_prompt prompt state db = Ok (state', saved) /\ has_current state').
Proof.
  split; [|split].
  - intros now date state db. unfold create_new_session. simpl.
    eexists _, _. split; [done|]. apply lookup_dict_set_eq.
  - intros now date session_id state db (id & session & Hc & Hl).
    unfold delete_session.
    destruct (dict_mem session_id (chat_sessions state)); [|by exists id, session].
    destruct (bool_decide (current_session_id state = Some session_id)) eqn:E; simpl.
    + eexists _, _. split; [done|]. apply lookup_dict_set_eq.
    + apply bool_decide_eq_false in E.
      exists id, session. split; [done|]. simpl.
      rewrite lookup_dict_del_ne; [done|]. intros ->. by apply E.
  - intros prompt state db (id & session & Hc & Hl).
    unfold on_prompt. rewrite Hc, Hl.
    destruct (read_stream _ _ _) as [checkpoint_id full_response].
    eexists _, _. split; [done|]. simpl.
    eexists _, _. split; [done|]. apply lookup_dict_set_eq.
Qed.

(** *** The prompt against the backend *)

Lemma read_stream_in_loop (body : list frame) (rest : list sse_data)
    (checkpoint_id : option string) (full_response : string) :
  Forall in_loop body ->
  read_stream (map Sent body ++ rest) checkpoint_id full_response
    = read_stream rest checkpoint_id (full_response +:+ rendered body).
Proof.
  intros H. revert full_response.
  induction H as [|f body Hf _ IH]; intros full; simpl.
  - by rewrite append_empty_r.
  - destruct Hf as (Hc & He & Hr).
    destruct f; try done; rewrite IH; by rewrite ?append_assoc.
Qed.

Lemma rendered_without_results (fs : list frame) :
  count is_search_results fs = 0 -> rendered fs = frame_text fs.
Proof.
  induction fs as [|f fs IH]; [done|].
  rewrite count_cons. destruct f; simpl; intros H; try (by apply IH); try lia.
  by rewrite IH.
Qed.

Lemma rendered_app (a b : list frame) : rendered (a ++ b) = rendered a +:+ rendered b.
Proof.
  induction a as [|f a IH]; [done|].
  destruct f; simpl; try done; by rewrite IH, append_assoc.
Qed.

(** What the loop makes of a stream of the backend. *)
Lemma read_stream_backend (new_id : string)
    (astream_events : list BaseMessage -> string -> event_stream)
    (prompt : string) (param stored : option string) :
  let fs := generate_chat_responses new_id astream_events prompt param in
  read_stream (map Sent fs) stored ""
    = (match param with None => Some new_id | Some _ => stored end, rendered fs).
Proof.
  cbv zeta. unfold generate_chat_responses.
  destruct param as [thread_id|]; cbv zeta;
    set (es := astream_events _ _); rewrite stream_events_split.
  - rewrite map_app, read_stream_in_loop by apply yielded_in_loop.
    rewrite rendered_app. simpl.
    by destruct (turn_exception _ _); simpl; rewrite append_empty_r.
  - simpl. rewrite map_app, read_stream_in_loop by apply yielded_in_loop.
    rewrite rendered_app. simpl.
    by destruct (turn_exception _ _); simpl; rewrite append_empty_r.
Qed.

(** X17. The conversation identifier goes round: a prompt of a session
    without identifier is sent without one, and the identifier the backend
    issues in its first frame is stored in the session, also when the turn
    ends with [error]; a session with an identifier sends it and keeps it.
    An identifier that is stored and not empty is sent with the next
    prompt. *)
Theorem conversation_identifier_round_trip (prompt id new_id : string)
    (astream_events : list BaseMessage -> string -> event_stream)
    (state : session_state) (db : gmap string (list (string * session)))
    (session : session) :
  current_session_id state = Some id ->
  Py.lookup id (chat_sessions state) = Some session ->
  request prompt (request_params (session_checkpoint_id session))
    = map Sent (generate_chat_responses new_id astream_events prompt
                  (request_params (session_checkpoint_id session))) ->
  exists state' saved session',
    on_prompt prompt state db = Ok (state', saved) /\
    current_session_id state' = Some id /\
    Py.lookup id (chat_sessions state') = Some session' /\
    session_checkpoint_id session'
      = match request_params (session_checkpoint_id session) with
        | None => Some new_id
        | Some sent => Some sent
        end /\
    (new_id <> "" ->
     request_params (session_checkpoint_id session') = session_checkpoint_id session').
Proof.
  intros Hc Hl Hreq. unfold on_prompt. rewrite Hc, Hl, Hreq.
  rewrite read_stream_backend.
  eexists _, _, _. split; [done|]. split; [done|].
  split; [apply lookup_dict_set_eq|]. simpl.
  destruct (session_checkpoint_id session) as [[|ch rest]|]; simpl; split; try done.
  all: intros Hne; by destruct new_id.
Qed.

(** X18. What a prompt records: the user message and then one assistant
    message, whose text is made of the [content] frames and of the link
    blocks of the [search_results] frames of the stream, in order. The text
    of an [error] frame is not part of it, and without [search_results]
    frames it is the concatenation of the [content] frames. *)
Theorem prompt_records_user_and_assistant (prompt id new_id : string)
    (astream_events : list BaseMessage -> string -> event_stream)
    (state : session_state) (db : gmap string (list (string * session)))
    (session : session) :
  current_session_id state = Some id ->
  Py.lookup id (chat_sessions state) = Some session ->
  request prompt (request_params (session_checkpoint_id session))
    = map Sent (generate_chat_responses new_id astream_events prompt
                  (request_params (session_checkpoint_id session))) ->
  let fs := generate_chat_responses new_id astream_events prompt
              (request_params (session_checkpoint_id session)) in
  exists state' saved session',
    on_prompt prompt state db = Ok (state', saved) /\
    Py.lookup id (chat_sessions state') = Some session' /\
    session_name session' = session_name session /\
    session_messages session'
      = session_messages session ++ [("user", prompt); ("assistant", rendered fs)] /\
    (count is_search_results fs = 0 -> rendered fs = frame_text fs) /\
    (forall key, key <> id ->
       Py.lookup key (chat_sessions state') = Py.lookup key (chat_sessions state)).
Proof.
  intros Hc Hl Hreq fs. unfold on_prompt. rewrite Hc, Hl, Hreq.
  rewrite read_stream_backend. fold fs.
  eexists _, _, _. split; [done|].
  split; [apply lookup_dict_set_eq|]. simpl.
  split; [done|]. split; [by rewrite <- app_assoc|].
  split; [apply rendered_without_results|].
  intros key Hk. by apply lookup_dict_set_ne.
Qed.


End FrontendProperties.

Lemma ltb_asym (a b : Z) : (a <? b)%Z = true -> (b <? a)%Z = false.
Proof. rewrite Z.ltb_lt, Z.ltb_ge. lia. Qed.

Lemma ltb_chain (a b c : Z) :
  (a <? b)%Z = false -> (b <? c)%Z = false -> (a <? c)%Z = false.
Proof. rewrite !Z.ltb_ge. lia. Qed.

Lemma saved_sessions_load_back_witness :
  sessions_to_save Z Scenario.float_of_key Z.ltb Scenario.saved_sessions 2
    = Ok (load_chat_sessions (Ok (<["sessions" := drop 1 Scenario.saved_sessions]> ∅))).
Proof.
  apply (saved_sessions_load_back Z Scenario.float_of_key Z.ltb
           Scenario.saved_sessions 2 ∅
           (<["sessions" := drop 1 Scenario.saved_sessions]> ∅)).
  reflexivity.
Defined.

Lemma saving_twice_changes_nothing_witness :
  save_chat_sessions Z Scenario.float_of_key Z.ltb
    (load_chat_sessions (Ok (<["sessions" := drop 1 Scenario.saved_sessions]> ∅))) 2
    (<["sessions" := drop 1 Scenario.saved_sessions]> ∅)
  = Ok (<["sessions" := drop 1 Scenario.saved_sessions]> ∅).
Proof.
  apply (saving_twice_changes_nothing Z Scenario.float_of_key Z.ltb
           Scenario.saved_sessions 2 ∅); [lia | reflexivity].
Defined.

Lemma non_numeric_key_blocks_pruning_witness :
  if (Z.of_nat (length Example.drafted_sessions) >? 3)%Z then
    exists key',
      key' ∈ Example.drafted_sessions.*1 /\ Scenario.float_of_key key' = None /\
      save_chat_sessions Z Scenario.float_of_key Z.ltb Example.drafted_sessions 3 ∅
      = Raise (ValueError ("could not convert string to float: '" +:+ key' +:+ "'"))
  else
    save_chat_sessions Z Scenario.float_of_key Z.ltb Example.drafted_sessions 3 ∅
    = Ok (<["sessions" := Example.drafted_sessions]> ∅).
Proof.
  apply (non_numeric_key_blocks_pruning Z Scenario.float_of_key Z.ltb
           Example.drafted_sessions 3 ∅ "draft").
  - apply list_elem_of_here.
  - reflexivity.
Defined.

Lemma negative_limit_drops_oldest_witness :
  exists saved,
    save_chat_sessions Z Scenario.float_of_key Z.ltb Scenario.saved_sessions (-1) ∅
      = Ok (<["sessions" := saved]> ∅) /\
    length saved = Z.to_nat (Z.of_nat (length Scenario.saved_sessions) + -1) /\
    (forall entry, entry ∈ saved -> entry ∈ Scenario.saved_sessions) /\
    (forall kept dropped key_kept key_dropped,
       kept ∈ saved -> dropped ∈ Scenario.saved_sessions -> dropped ∉ saved ->
       Scenario.float_of_key kept.1 = Some key_kept ->
       Scenario.float_of_key dropped.1 = Some key_dropped ->
       Z.ltb key_kept key_dropped = false).
Proof.
  apply (negative_limit_drops_oldest Z Scenario.float_of_key Z.ltb ltb_asym ltb_chain).
  - lia.
  - apply (bool_decide_unpack _). by vm_compute.
  - repeat constructor; by eexists.
Defined.

Lemma pruned_sessions_newest_first_witness :
  exists saved,
    sessions_to_save Z Scenario.float_of_key Z.ltb Scenario.saved_sessions 2 = Ok saved /\
    (forall a b key_a key_b,
       before saved a b ->
       Scenario.float_of_key a.1 = Some key_a -> Scenario.float_of_key b.1 = Some key_b ->
       Z.ltb key_a key_b = false) /\
    (forall a b key_a key_b,
       before Scenario.saved_sessions a b ->
       Scenario.float_of_key a.1 = Some key_a -> Scenario.float_of_key b.1 = Some key_b ->
       Z.ltb key_a key_b = false ->
       b ∈ saved -> before saved a b).
Proof.
  apply (pruned_sessions_newest_first Z Scenario.float_of_key Z.ltb ltb_asym ltb_chain).
  - apply (bool_decide_unpack _). by vm_compute.
  - lia.
  - repeat constructor; by eexists.
  - simpl. lia.
Defined.

Lemma new_session_is_current_and_saved_witness :
  let fresh := mkSession ("Chat " +:+ "2024-06-10 06:30") [] None in
  let r := create_new_session Z Example.float_of_key Z.ltb Example.now
             "2024-06-10 06:30" Example.state ∅ in
  current_session_id r.1 = Some Example.now /\
  Py.lookup Example.now (chat_sessions r.1) = Some fresh /\
  (forall key, key <> Example.now ->
     Py.lookup key (chat_sessions r.1) = Py.lookup key (chat_sessions Example.state)) /\
  exists db',
    r.2 = Ok db' /\
    Py.lookup Example.now (load_chat_sessions (Ok db')) = Some fresh.
Proof.
  apply (new_session_is_current_and_saved Z Example.float_of_key Z.ltb
           ltb_asym ltb_chain Example.now "2024-06-10 06:30" Example.state ∅
           171800100000%Z).
  - apply (bool_decide_unpack _). by vm_compute.
  - repeat constructor; by eexists.
  - reflexivity.
  - intros key fk Hin Hne Hf. simpl in Hin.
    repeat (apply elem_of_cons in Hin as [->|Hin]);
      try (by apply elem_of_nil in Hin);
      vm_compute in Hf; injection Hf as <-; reflexivity.
Defined.

Lemma conversation_identifier_round_trip_witness :
  exists state' saved session',
    on_prompt Z Example.float_of_key Z.ltb Scenario.py_str Example.request
      Scenario.question Example.state_without_conversation ∅ = Ok (state', saved) /\
    current_session_id state' = Some "1718000400.75" /\
    Py.lookup "1718000400.75" (chat_sessions state') = Some session' /\
    session_checkpoint_id session'
      = match request_params None with
        | None => Some "0b9f6c1e-5a3d-4c58-9a51-2f0c1a7e4d10"
        | Some sent => Some sent
        end /\
    ("0b9f6c1e-5a3d-4c58-9a51-2f0c1a7e4d10" <> "" ->
     request_params (session_checkpoint_id session') = session_checkpoint_id session').
Proof.
  apply (conversation_identifier_round_trip Z Example.float_of_key Z.ltb
           Scenario.py_str Example.request Scenario.question "1718000400.75"
           "0b9f6c1e-5a3d-4c58-9a51-2f0c1a7e4d10" Example.astream_events
           Example.state_without_conversation ∅
           (mkSession "Chat 2024-06-10 06:20" [] None));
    reflexivity.
Defined.

Lemma prompt_records_user_and_assistant_witness :
  let fs := generate_chat_responses "0b9f6c1e-5a3d-4c58-9a51-2f0c1a7e4d10"
              Example.astream_events Scenario.question
              (request_params (Some "thread-1")) in
  exists state' saved session',
    on_prompt Z Example.float_of_key Z.ltb Scenario.py_str Example.request
      Scenario.question Example.state ∅ = Ok (state', saved) /\
    Py.lookup "1718000900.5" (chat_sessions state') = Some session' /\
    session_name session' = "Chat 2024-06-10 06:28" /\
    session_messages session'
      = [] ++ [("user", Scenario.question);
               ("assistant", rendered Scenario.py_str fs)] /\
    (count is_search_results fs = 0 -> rendered Scenario.py_str fs = frame_text fs) /\
    (forall key, key <> "1718000900.5" ->
       Py.lookup key (chat_sessions state')
       = Py.lookup key (chat_sessions Example.state)).
Proof.
  apply (prompt_records_user_and_assistant Z Example.float_of_key Z.ltb
           Scenario.py_str Example.request Scenario.question "1718000900.5"
           "0b9f6c1e-5a3d-4c58-9a51-2f0c1a7e4d10" Example.astream_events
           Example.state ∅
           (mkSession "Chat 2024-06-10 06:28" [] (Some "thread-1")));
    reflexivity.
Defined.
